(** * Decoder++ core: commands and plugins

    A shallow embedding of [core/command/command.py] and
    [core/plugin/abstract_plugin.py], followed by the properties of the
    specification that were checked against it.

    Reading of the Python data:
    - a [str] is a [string], one character per code point (the literals
      of the sources are ASCII);
    - a parameter annotated [str] that the code compares with [None] is
      an [option string], [None] standing for Python's [None];
    - a callable is a function of its positional and keyword arguments
      that may read and change the world, return a value or raise;
    - [assert] is checked (the interpreter runs without [-O]). *)

From Stdlib Require Import String Ascii DecimalString List ZArith Bool.
From stdpp Require Import base option list strings gmap.

Local Open Scope string_scope.
Local Open Scope list_scope.

(** ** The fragment of Python the two modules rely on *)

Module Py.

(** Values that travel through the hooks. *)
Inductive value : Type :=
| VNone
| VBool (b : bool)
| VInt (z : Z)
| VStr (s : string).

(** Exceptions.  [BaseOnly] stands for the classes that derive from
    [BaseException] but not from [Exception] (KeyboardInterrupt,
    SystemExit, GeneratorExit); every other constructor is a subclass of
    [Exception]. *)
Inductive exn : Type :=
| AssertionError (msg : string)
| NotImplementedError (msg : string)
| TypeError (msg : string)
| AttributeError (msg : string)
| OtherException (cls msg : string)
| BaseOnly (cls : string).

(** [isinstance(e, Exception)] *)
Definition is_Exception (e : exn) : bool :=
  match e with
  | BaseOnly _ => false
  | _ => true
  end.

Inductive result (A : Type) : Type :=
| Ret (a : A)
| Raise (e : exn).
Arguments Ret {A} a.
Arguments Raise {A} e.

(** A computation over a state [S]: it ends with a value or an
    exception, and in both cases with a state. *)
Definition M (S A : Type) : Type := S -> result A * S.

Definition ret {S A} (a : A) : M S A := fun s => (Ret a, s).

Definition raise {S A} (e : exn) : M S A := fun s => (Raise e, s).

Definition bind {S A B} (m : M S A) (k : A -> M S B) : M S B :=
  fun s =>
    match m s with
    | (Ret a, s') => k a s'
    | (Raise e, s') => (Raise e, s')
    end.

(** [assert cond, msg] *)
Definition assert_ {S} (cond : bool) (msg : string) : M S unit :=
  if cond then ret tt else raise (AssertionError msg).

(** [try: body / except Exception as e: handler] *)
Definition try_except_Exception {S A} (body : M S A) (handler : exn -> M S A) : M S A :=
  fun s =>
    match body s with
    | (Ret a, s') => (Ret a, s')
    | (Raise e, s') => if is_Exception e then handler e s' else (Raise e, s')
    end.

(** [for x in l: body], the variables the body assigns to being [acc]. *)
Fixpoint for_each {S A B} (l : list A) (acc : B) (body : B -> A -> M S B) : M S B :=
  match l with
  | [] => ret acc
  | x :: l' => bind (body acc x) (fun acc' => for_each l' acc' body)
  end.

Definition args : Type := list value.
Definition kwargs : Type := list (string * value).

(** What the module cannot see of the interpreter: the state outside
    the modelled objects and the library functions the sources call. *)
Class Runtime : Type := {
  World : Type;
  (** [importlib.import_module(name)]: runs the module, so it may change
      the world and raise anything *)
  import_module : string -> M World unit;
  (** [hash((name, type))], where each component is a [str] or [None] *)
  hash : option string * option string -> Z;
  (** [os.linesep] *)
  linesep : string;
  (** [str.capitalize] *)
  capitalize : string -> string
}.

(** A function or closure supplied from outside the module. *)
Definition callable_fn `{Runtime} : Type := args -> kwargs -> M World value.

(** Truth value of a [str]: [if text_part:] *)
Definition str_truth (s : string) : bool :=
  match s with
  | EmptyString => false
  | String _ _ => true
  end.

(** Truth value of a string attribute that may be [None]. *)
Definition opt_str_truth (o : option string) : bool :=
  match o with
  | None => false
  | Some s => str_truth s
  end.

(** Truth value of a list that may be [None]: [if self._dependencies:] *)
Definition opt_list_truth {A} (o : option (list A)) : bool :=
  match o with
  | None | Some [] => false
  | Some (_ :: _) => true
  end.

(** [len(s) > 0] *)
Definition len_pos (s : string) : bool := (0 <? Z.of_nat (String.length s))%Z.

(** ["{}".format(x)] for an attribute that is a string or [None] *)
Definition format_field (o : option string) : string :=
  match o with
  | None => "None"
  | Some s => s
  end.

(** [a == b] on strings that may be [None] *)
Definition str_eq (a b : option string) : bool :=
  match a, b with
  | None, None => true
  | Some x, Some y => String.eqb x y
  | _, _ => false
  end.

(** [k1 == k2] on pairs of such strings: component by component *)
Definition key_eq (k1 k2 : option string * option string) : bool :=
  str_eq (fst k1) (fst k2) && str_eq (snd k1) (snd k2).

(** [x in l] for a list of strings *)
Definition str_in (x : option string) (l : list string) : bool :=
  existsb (fun y => str_eq x (Some y)) l.

(** Line boundaries of [str.splitlines] among the code points below 256. *)
Definition is_linebreak (c : ascii) : bool :=
  match Ascii.N_of_ascii c with
  | 10 | 11 | 12 | 13 | 28 | 29 | 30 | 133 => true
  | _ => false
  end%N.

Definition snoc (s : string) (c : ascii) : string := s ++ String c EmptyString.

(** [str.splitlines()]: a carriage return followed by a line feed is one
    boundary, and a boundary at the very end opens no further line. *)
Fixpoint splitlines_from (cur : option string) (s : string) : list string :=
  match s with
  | EmptyString =>
      match cur with
      | None => []
      | Some l => [l]
      end
  | String c rest =>
      let l := default EmptyString cur in
      if Ascii.eqb c "013" then
        match rest with
        | String "010" rest' => l :: splitlines_from None rest'
        | _ => l :: splitlines_from None rest
        end
      else if is_linebreak c then l :: splitlines_from None rest
      else splitlines_from (Some (snoc l c)) rest
  end.

Definition splitlines (s : string) : list string := splitlines_from None s.

(** [s.split(sep)] for a separator of one character: every occurrence
    of the separator cuts, so neighbouring separators give empty parts. *)
Fixpoint split_from (sep : ascii) (cur : string) (s : string) : list string :=
  match s with
  | EmptyString => [cur]
  | String c rest =>
      if Ascii.eqb c sep then cur :: split_from sep EmptyString rest
      else split_from sep (snoc cur c) rest
  end.

Definition split (sep : ascii) (s : string) : list string := split_from sep EmptyString s.

(** [c in s] for a character [c] *)
Fixpoint has_char (c : ascii) (s : string) : bool :=
  match s with
  | EmptyString => false
  | String c' s' => Ascii.eqb c' c || has_char c s'
  end.

(** [sep.join(l)] on strings *)
Fixpoint join (sep : string) (l : list string) : string :=
  match l with
  | [] => EmptyString
  | [x] => x
  | x :: l' => x ++ sep ++ join sep l'
  end.

(** The strings of a list of values, if all of them are strings. *)
Fixpoint all_str (l : list value) : option (list string) :=
  match l with
  | [] => Some []
  | VStr s :: l' => option_map (cons s) (all_str l')
  | _ :: _ => None
  end.

(** [type(v).__name__] *)
Definition type_name (v : value) : string :=
  match v with
  | VNone => "NoneType"
  | VBool _ => "bool"
  | VInt _ => "int"
  | VStr _ => "str"
  end.

(** The first item of a list that is no string, with its index,
    counting from [i]. *)
Fixpoint first_non_str (i : nat) (l : list value) : option (nat * value) :=
  match l with
  | [] => None
  | VStr _ :: l' => first_non_str (S i) l'
  | v :: _ => Some (i, v)
  end.

(** The message of the [TypeError] of [str.join]. *)
Definition join_error (l : list value) : string :=
  match first_non_str 0 l with
  | Some (i, v) =>
      "sequence item " ++ NilEmpty.string_of_uint (Nat.to_uint i)
      ++ ": expected str instance, " ++ type_name v ++ " found"
  | None => EmptyString
  end.

(** [sep.join(l)] on values: a [TypeError] unless every item is a [str]. *)
Definition str_join {S} (sep : string) (l : list value) : M S string :=
  match all_str l with
  | Some strs => ret (join sep strs)
  | None => raise (TypeError (join_error l))
  end.

End Py.

Import Py.

Declare Scope py_scope.
Delimit Scope py_scope with py.
Notation "x <- m ;; k" := (bind m (fun x => k))
  (at level 100, m at next level, right associativity) : py_scope.
Notation "m ;;; k" := (bind m (fun _ => k))
  (at level 100, right associativity) : py_scope.
Local Open Scope py_scope.

(** ** core/command/command.py *)

Module Command.

(** [class Type] *)
Module Type_.
Definition DECODER : string := "Decoder".
Definition ENCODER : string := "Encoder".
Definition HASHER : string := "Hasher".
Definition SCRIPT : string := "Script".
End Type_.

Section Objects.
Context `{Runtime}.

(** The callables found in the hook attributes.  Those that the module
    creates itself are closures over an object, and are kept apart from
    the callables that come from outside. *)
Inductive callable : Type :=
| Fn (f : callable_fn)
    (** supplied by the caller *)
| DefaultSelect (builder : positive)
    (** [_select_method], defined in [Builder.build], closed over [self] *)
| DefaultTitle (builder : positive)
    (** the [lambda] of [Builder.build], closed over [self] *)
| NullTitle
    (** the [lambda] of [NullCommand.__init__], which returns the empty string *)
| NullRun
    (** the bound method [self.run] of a [NullCommand] *)
| NullSelect.
    (** the bound method [self.select] of a [NullCommand] *)

(** The class an instance was created from. *)
Inductive class : Type :=
| Command_
| NullCommand_.

(** The attributes [__init__] assigns; [__init__] checks nothing, so
    each of them holds what the caller passed, [None] included. *)
Record t : Type := init {
  _name : option string;
  _type : option string;
  _author : option string;
  _title_method : option callable;
  _run_method : option callable;
  _select_method : option callable;
  class_of : class
}.

End Objects.

(** *** [class Builder]

    A builder is changed in place by its setters and by [build], and
    the default hooks that [build] creates keep a reference to it, so
    builders live in a heap. *)
Module Builder.
Section Defs.
Context `{Runtime}.

Record t : Type := init {
  _name : option string;
  _type : option string;
  _author : option string;
  _run_method : option callable_fn;
  _select_method : option callable;
  _title_method : option callable
}.

(** The state a command runs in: the builders and the world. *)
Record state : Type := State {
  builders : gmap positive t;
  world : World
}.

(** Running a computation of the outside world. *)
Definition lift {A} (m : M World A) : M state A :=
  fun s =>
    let (r, w) := m (world s) in
    (r, {| builders := builders s; world := w |}).

(** Reading the object behind a reference.  A reference is obtained
    from [new] only, and no object is ever freed, so the second case
    does not arise in a run that starts from [new]. *)
Definition get (self : positive) : M state t :=
  fun s =>
    match builders s !! self with
    | Some o => (Ret o, s)
    | None => (Raise (OtherException "ReferenceError" "no such builder"), s)
    end.

Definition put (self : positive) (o : t) : M state unit :=
  fun s => (Ret tt, {| builders := <[self := o]> (builders s); world := world s |}).

(** [Command.Builder()] *)
Definition new : M state positive :=
  fun s =>
    let self := fresh (dom (builders s)) in
    (Ret self,
     {| builders := <[self := init None None None None None None]> (builders s);
        world := world s |}).

(** Attribute assignments [self._x = v]. *)
Definition set_name (self : positive) (v : option string) : M state unit :=
  o <- get self ;;
  put self (init v (_type o) (_author o) (_run_method o) (_select_method o) (_title_method o)).

Definition set_type (self : positive) (v : option string) : M state unit :=
  o <- get self ;;
  put self (init (_name o) v (_author o) (_run_method o) (_select_method o) (_title_method o)).

Definition set_author (self : positive) (v : option string) : M state unit :=
  o <- get self ;;
  put self (init (_name o) (_type o) v (_run_method o) (_select_method o) (_title_method o)).

Definition set_run_method (self : positive) (v : option callable_fn) : M state unit :=
  o <- get self ;;
  put self (init (_name o) (_type o) (_author o) v (_select_method o) (_title_method o)).

Definition set_select_method (self : positive) (v : option callable) : M state unit :=
  o <- get self ;;
  put self (init (_name o) (_type o) (_author o) (_run_method o) v (_title_method o)).

Definition set_title_method (self : positive) (v : option callable) : M state unit :=
  o <- get self ;;
  put self (init (_name o) (_type o) (_author o) (_run_method o) (_select_method o) v).

(** The fluent setters: each returns the builder. *)
Definition name (self : positive) (name : option string) : M state positive :=
  set_name self name ;;; ret self.

Definition type (self : positive) (type : option string) : M state positive :=
  set_type self type ;;; ret self.

Definition author (self : positive) (author : option string) : M state positive :=
  set_author self author ;;; ret self.

Definition title (self : positive) (title_method : option callable) : M state positive :=
  set_title_method self title_method ;;; ret self.

Definition run (self : positive) (run_method : option callable_fn) : M state positive :=
  set_run_method self run_method ;;; ret self.

Definition select (self : positive) (select_method : option callable) : M state positive :=
  set_select_method self select_method ;;; ret self.

Definition build (self : positive) : M state Command.t :=
  o <- get self ;;
  assert_ (match _name o with Some n => len_pos n | None => false end)
    "Name is required and should not be None or Empty." ;;;
  assert_ (bool_decide (is_Some (_type o)))
    "Type is required and should not be None." ;;;
  assert_ (bool_decide (is_Some (_run_method o)))
    "Run method or run source is required and should not be None." ;;;
  (if _select_method o is None
   then set_select_method self (Some (DefaultSelect self))
   else ret tt) ;;;
  o <- get self ;;
  (if _title_method o is None
   then set_title_method self (Some (DefaultTitle self))
   else ret tt) ;;;
  o <- get self ;;
  ret (Command.init (_name o) (_type o) (_author o) (_title_method o)
         (Fn <$> _run_method o) (_select_method o) Command_).

End Defs.
End Builder.

Section Methods.
Context `{Runtime}.

(** Calling what a hook attribute holds.  The two closures of
    [Builder.build] read the builder when they are called, not when
    they are made. *)
Definition call (f : option callable) (a : args) (k : kwargs) : M Builder.state value :=
  match f with
  | None => raise (TypeError "'NoneType' object is not callable")
  | Some (Fn g) => Builder.lift (g a k)
  | Some (DefaultSelect self) =>
      (* def _select_method( *args, **kwargs): self._run_method( *args) *)
      o <- Builder.get self ;;
      match Builder._run_method o with
      | None => raise (TypeError "'NoneType' object is not callable")
      | Some run_method => Builder.lift (run_method a []) ;;; ret VNone
      end
  | Some (DefaultTitle self) =>
      (* lambda: "{} {}".format(self._name, self._type.capitalize()) *)
      match a, k with
      | [], [] =>
          o <- Builder.get self ;;
          match Builder._type o with
          | None => raise (AttributeError "'NoneType' object has no attribute 'capitalize'")
          | Some type => ret (VStr (format_field (Builder._name o) ++ " " ++ capitalize type))
          end
      | _, _ => raise (TypeError "<lambda>() takes 0 positional arguments")
      end
  | Some NullTitle =>
      match a, k with
      | [], [] => ret (VStr EmptyString)
      | _, _ => raise (TypeError "<lambda>() takes 0 positional arguments")
      end
  | Some NullRun => ret VNone
  | Some NullSelect => ret VNone
  end.

Definition name (self : t) : option string := _name self.

Definition type (self : t) : option string := _type self.

Definition title (self : t) : M Builder.state value := call (_title_method self) [] [].

Definition author (self : t) : option string := _author self.

Definition select (self : t) (a : args) (k : kwargs) : M Builder.state value :=
  call (_select_method self) a [].

Definition run (self : t) (a : args) (k : kwargs) : M Builder.state value :=
  call (_run_method self) a [].

(** [__key] *)
Definition key (self : t) : option string * option string := (_name self, _type self).

(** [__eq__] *)
Definition eq (x y : t) : bool := key_eq (key x) (key y).

(** [__hash__] *)
Definition hash_ (self : t) : Z := hash (key self).

End Methods.

End Command.

(** [class NullCommand(Command)] *)
Module NullCommand.
Section Defs.
Context `{Runtime}.

(** [NullCommand()] *)
Definition new : Command.t :=
  Command.init (Some EmptyString) (Some EmptyString) (Some EmptyString)
    (Some Command.NullTitle) (Some Command.NullRun) (Some Command.NullSelect)
    Command.NullCommand_.

(** The two overriding methods: [pass]. *)
Definition select (self : Command.t) (a : args) (k : kwargs) : M Command.Builder.state value :=
  ret VNone.

Definition run (self : Command.t) (a : args) (k : kwargs) : M Command.Builder.state value :=
  ret VNone.

End Defs.
End NullCommand.

(** Method lookup on an instance: the definition of its own class wins. *)
Module Send.
Section Defs.
Context `{Runtime}.

Definition select (self : Command.t) : args -> kwargs -> M Command.Builder.state value :=
  match Command.class_of self with
  | Command.Command_ => Command.select self
  | Command.NullCommand_ => NullCommand.select self
  end.

Definition run (self : Command.t) : args -> kwargs -> M Command.Builder.state value :=
  match Command.class_of self with
  | Command.Command_ => Command.run self
  | Command.NullCommand_ => NullCommand.run self
  end.

End Defs.
End Send.

(** ** core/plugin/abstract_plugin.py *)

Module AbstractPlugin.
Section Defs.
Context `{Runtime}.

(** What a class derived from the plugin classes defines itself, as
    methods bound to the instance; [None] where it inherits. *)
Record class : Type := Class {
  def_run : option callable_fn;
  def_select : option callable_fn;
  def_can_be_decoded : option (value -> M World bool)
}.

(** The class that defines nothing of its own. *)
Definition plain : class := Class None None None.

Record t : Type := Object {
  _name : option string;
  _type : option string;
  _author : option string;
  _dependencies : option (list string);
  class_of : class
}.

(** [__init__], for an instance of class [cls] *)
Definition init {S} (cls : class) (name type author : option string)
    (dependencies : option (list string)) : M S t :=
  assert_ (match name with Some n => len_pos n | None => false end)
    "Name is required and should not be None or Empty" ;;;
  assert_ (str_in type [Command.Type_.DECODER; Command.Type_.ENCODER;
                        Command.Type_.HASHER; Command.Type_.SCRIPT])
    "Type is required and should be either 'DECODER', 'ENCODER', 'HASHER' or 'SCRIPT'" ;;;
  assert_ (match author with Some a => len_pos a | None => false end)
    "Author is required and should not be None or Empty" ;;;
  ret (Object name type author dependencies cls).

Definition name (self : t) : option string := _name self.

Definition type (self : t) : option string := _type self.

Definition title {S} (self : t) : M S string :=
  match _type self with
  | None => raise (AttributeError "'NoneType' object has no attribute 'capitalize'")
  | Some type => ret (format_field (_name self) ++ " " ++ capitalize type)%string
  end.

Definition author (self : t) : option string := _author self.

Definition check_dependencies (self : t) : M World (list string) :=
  let unresolved_dependencies := [] in
  if opt_list_truth (_dependencies self) then
    for_each (default [] (_dependencies self)) unresolved_dependencies
      (fun unresolved_dependencies dependency =>
         try_except_Exception
           (import_module dependency ;;; ret unresolved_dependencies)
           (fun e => ret (unresolved_dependencies ++ [dependency])))
  else ret unresolved_dependencies.

Definition run (self : t) (a : args) (k : kwargs) : M World value :=
  raise (NotImplementedError "Method must be implemented from upper class").

(** [self.run(...)]: the definition of the instance's class if it has
    one, the one above otherwise. *)
Definition send_run (self : t) (a : args) (k : kwargs) : M World value :=
  match def_run (class_of self) with
  | Some f => f a k
  | None => run self a k
  end.

Definition _run_lines (self : t) (text : string) (callback : callable_fn) : M World string :=
  lines <- for_each (splitlines text) []
    (fun lines text_line =>
       result <- for_each (split " " text_line) []
         (fun result text_part =>
            if str_truth text_part then
              v <- callback [VStr text_part] [] ;;
              ret (result ++ [v])
            else ret result) ;;
       line <- str_join " " result ;;
       ret (lines ++ [line])) ;;
  ret (join linesep lines).

Definition select (self : t) (a : args) (k : kwargs) : M World value :=
  send_run self a [].

(** [self.select(...)] *)
Definition send_select (self : t) (a : args) (k : kwargs) : M World value :=
  match def_select (class_of self) with
  | Some f => f a k
  | None => select self a k
  end.

(** [__key] *)
Definition key (self : t) : option string * option string := (_name self, _type self).

(** [__eq__] *)
Definition eq (x y : t) : bool := key_eq (key x) (key y).

(** [__hash__] *)
Definition hash_ (self : t) : Z := hash (key self).

End Defs.
End AbstractPlugin.

Module DecoderPlugin.
Section Defs.
Context `{Runtime}.

Definition init {S} (cls : AbstractPlugin.class) (name author : option string)
    (dependencies : option (list string)) : M S AbstractPlugin.t :=
  AbstractPlugin.init cls name (Some Command.Type_.DECODER) author dependencies.

Definition can_be_decoded (self : AbstractPlugin.t) (input : value) : M World bool :=
  ret false.

(** [self.can_be_decoded(input)] *)
Definition send_can_be_decoded (self : AbstractPlugin.t) (input : value) : M World bool :=
  match AbstractPlugin.def_can_be_decoded (AbstractPlugin.class_of self) with
  | Some f => f input
  | None => can_be_decoded self input
  end.

End Defs.
End DecoderPlugin.

Module EncoderPlugin.
Section Defs.
Context `{Runtime}.

Definition init {S} (cls : AbstractPlugin.class) (name author : option string)
    (dependencies : option (list string)) : M S AbstractPlugin.t :=
  AbstractPlugin.init cls name (Some Command.Type_.ENCODER) author dependencies.

End Defs.
End EncoderPlugin.

Module HasherPlugin.
Section Defs.
Context `{Runtime}.

Definition init {S} (cls : AbstractPlugin.class) (name author : option string)
    (dependencies : option (list string)) : M S AbstractPlugin.t :=
  AbstractPlugin.init cls name (Some Command.Type_.HASHER) author dependencies.

End Defs.
End HasherPlugin.

Module ScriptPlugin.
Section Defs.
Context `{Runtime}.

Definition init {S} (cls : AbstractPlugin.class) (name author : option string)
    (dependencies : option (list string)) : M S AbstractPlugin.t :=
  AbstractPlugin.init cls name (Some Command.Type_.SCRIPT) author dependencies.

End Defs.
End ScriptPlugin.

(** ** A concrete runtime

    Used for the examples: the world is the list of the modules whose
    import was attempted, latest first; two modules resolve, one ends
    the interpreter while it is imported, every other name is unknown;
    lines are separated as on POSIX; [capitalize] is Python's on ASCII
    strings. *)

Module Posix.

Definition upper (c : ascii) : ascii :=
  let n := Ascii.N_of_ascii c in
  if ((97 <=? n) && (n <=? 122))%N then Ascii.ascii_of_N (n - 32) else c.

Definition lower (c : ascii) : ascii :=
  let n := Ascii.N_of_ascii c in
  if ((65 <=? n) && (n <=? 90))%N then Ascii.ascii_of_N (n + 32) else c.

Fixpoint map_string (f : ascii -> ascii) (s : string) : string :=
  match s with
  | EmptyString => EmptyString
  | String c s' => String (f c) (map_string f s')
  end.

Definition ascii_capitalize (s : string) : string :=
  match s with
  | EmptyString => EmptyString
  | String c s' => String (upper c) (map_string lower s')
  end.

Definition import_module (name : string) : M (list string) unit :=
  fun w =>
    if String.eqb name "base64" || String.eqb name "hashlib" then (Ret tt, name :: w)
    else if String.eqb name "exits_on_import" then (Raise (BaseOnly "SystemExit"), name :: w)
    else (Raise (OtherException "ModuleNotFoundError" name), name :: w).

Definition hash (k : option string * option string) : Z :=
  Z.of_nat (String.length (format_field (fst k))) * 31
  + Z.of_nat (String.length (format_field (snd k))).

Definition runtime : Runtime :=
  {| World := list string;
     Py.import_module := import_module;
     Py.hash := hash;
     linesep := String "010" EmptyString;
     capitalize := ascii_capitalize |}.

End Posix.

(** ** Descriptions to compare the code with *)

Module Described.
Section Defs.
Context `{Runtime}.

(** Calling [f] on each item in turn and collecting what it returns. *)
Fixpoint map_m {S A B} (f : A -> M S B) (l : list A) : M S (list B) :=
  match l with
  | [] => ret []
  | x :: l' => y <- f x ;; ys <- map_m f l' ;; ret (y :: ys)
  end.

(** Line by line and token by token, for a given way of cutting a
    line into tokens: the callback on each token, the results of a
    line joined with one space, the lines with the line separator. *)
Definition run_lines_with (tokens : string -> list string)
    (text : string) (callback : callable_fn) : M World string :=
  lines <- map_m
    (fun line =>
       results <- map_m (fun token => callback [VStr token] []) (tokens line) ;;
       str_join " " results)
    (splitlines text) ;;
  ret (join linesep lines).

(** White space below code point 256, as [str.isspace] has it. *)
Definition is_whitespace (c : ascii) : bool :=
  match Ascii.N_of_ascii c with
  | 9 | 10 | 11 | 12 | 13 | 28 | 29 | 30 | 31 | 32 | 133 | 160 => true
  | _ => false
  end%N.

(** The tokens of a line as the specification words them: the maximal
    runs of characters that are not white space. *)
Fixpoint words_from (cur : string) (s : string) : list string :=
  match s with
  | EmptyString => if str_truth cur then [cur] else []
  | String c rest =>
      if is_whitespace c then
        (if str_truth cur then [cur] else []) ++ words_from EmptyString rest
      else words_from (snoc cur c) rest
  end.

Definition words (line : string) : list string := words_from EmptyString line.

(** [run_lines] as the specification words it. *)
Definition run_lines_spec : string -> callable_fn -> M World string :=
  run_lines_with words.

(** The tokens of a line when only the space character separates. *)
Definition space_tokens (line : string) : list string :=
  filter (fun part => str_truth part = true) (split " " line).

(** The outcome of importing each name in turn, whatever the outcome of
    the ones before. *)
Fixpoint imports (names : list string) (w : World) : list (string * result unit) * World :=
  match names with
  | [] => ([], w)
  | name :: names' =>
      let (r, w') := import_module name w in
      let (rs, w'') := imports names' w' in
      ((name, r) :: rs, w'')
  end.

Definition failed {A} (r : result A) : bool :=
  match r with
  | Ret _ => false
  | Raise _ => true
  end.

(** An outcome that [except Exception] lets through. *)
Definition escapes {A} (r : result A) : bool :=
  match r with
  | Ret _ => false
  | Raise e => negb (is_Exception e)
  end.

(** The names whose import failed, in the order of the attempts. *)
Definition unresolved (attempts : list (string * result unit)) : list string :=
  fst <$> filter (fun a => failed (snd a) = true) attempts.

(** A callable that computes a string from its one string argument and
    does nothing else. *)
Definition pure_callback (f : string -> string) : callable_fn :=
  fun a k =>
    match a with
    | [VStr s] => ret (VStr (f s))
    | _ => raise (TypeError "expected one str argument")
    end.

(** The calls [Command.Builder().name(n).type(t).author(a).run(r).build()]
    and [Command.Builder().name(n).type(t).run(r).build()]. *)
Definition built_with_author (n t a : string) (r : callable_fn)
  : M Command.Builder.state Command.t :=
  b <- Command.Builder.new ;;
  b <- Command.Builder.name b (Some n) ;;
  b <- Command.Builder.type b (Some t) ;;
  b <- Command.Builder.author b (Some a) ;;
  b <- Command.Builder.run b (Some r) ;;
  Command.Builder.build b.

Definition built_without_author (n t : string) (r : callable_fn)
  : M Command.Builder.state Command.t :=
  b <- Command.Builder.new ;;
  b <- Command.Builder.name b (Some n) ;;
  b <- Command.Builder.type b (Some t) ;;
  b <- Command.Builder.run b (Some r) ;;
  Command.Builder.build b.

End Defs.
End Described.

(** ** core/logging/log_entry.py *)

Module LogEntry.

Record t : Type := init {
  _time : string;
  _type : string;
  _message : string
}.

Definition time (self : t) : string := _time self.

Definition type (self : t) : string := _type self.

Definition message (self : t) : string := _message self.

End LogEntry.

(** ** Ways of using the two modules *)

Module Usage.
Section Defs.
Context `{Runtime}.

(** One call of a fluent setter of [Command.Builder]. *)
Inductive setting : Type :=
| SetName (name : option string)
| SetType (type : option string)
| SetAuthor (author : option string)
| SetTitle (title_method : option Command.callable)
| SetRun (run_method : option callable_fn)
| SetSelect (select_method : option Command.callable).

(** The attribute a setter assigns. *)
Inductive attribute : Type :=
| AName | AType | AAuthor | ATitle | ARun | ASelect.

Definition attribute_of (st : setting) : attribute :=
  match st with
  | SetName _ => AName
  | SetType _ => AType
  | SetAuthor _ => AAuthor
  | SetTitle _ => ATitle
  | SetRun _ => ARun
  | SetSelect _ => ASelect
  end.

(** [builder.name(v)], [builder.type(v)], ... *)
Definition call_setter (self : positive) (st : setting) : M Command.Builder.state positive :=
  match st with
  | SetName v => Command.Builder.name self v
  | SetType v => Command.Builder.type self v
  | SetAuthor v => Command.Builder.author self v
  | SetTitle v => Command.Builder.title self v
  | SetRun v => Command.Builder.run self v
  | SetSelect v => Command.Builder.select self v
  end.

(** A chain of setter calls, each on what the call before it returned:
    [builder.name(n).type(t)...]. *)
Fixpoint chain (self : positive) (l : list setting) : M Command.Builder.state positive :=
  match l with
  | [] => ret self
  | st :: l' => self' <- call_setter self st ;; chain self' l'
  end.

(** The attributes of a builder with the one of [st] replaced. *)
Definition assigned (o : Command.Builder.t) (st : setting) : Command.Builder.t :=
  match st with
  | SetName v =>
      Command.Builder.init v (Command.Builder._type o) (Command.Builder._author o)
        (Command.Builder._run_method o) (Command.Builder._select_method o)
        (Command.Builder._title_method o)
  | SetType v =>
      Command.Builder.init (Command.Builder._name o) v (Command.Builder._author o)
        (Command.Builder._run_method o) (Command.Builder._select_method o)
        (Command.Builder._title_method o)
  | SetAuthor v =>
      Command.Builder.init (Command.Builder._name o) (Command.Builder._type o) v
        (Command.Builder._run_method o) (Command.Builder._select_method o)
        (Command.Builder._title_method o)
  | SetTitle v =>
      Command.Builder.init (Command.Builder._name o) (Command.Builder._type o)
        (Command.Builder._author o) (Command.Builder._run_method o)
        (Command.Builder._select_method o) v
  | SetRun v =>
      Command.Builder.init (Command.Builder._name o) (Command.Builder._type o)
        (Command.Builder._author o) v (Command.Builder._select_method o)
        (Command.Builder._title_method o)
  | SetSelect v =>
      Command.Builder.init (Command.Builder._name o) (Command.Builder._type o)
        (Command.Builder._author o) (Command.Builder._run_method o) v
        (Command.Builder._title_method o)
  end.

(** The four constructors of typed plugins. *)
Inductive plugin_class : Type :=
| Decoder | Encoder | Hasher | Script.

Definition type_of (c : plugin_class) : string :=
  match c with
  | Decoder => Command.Type_.DECODER
  | Encoder => Command.Type_.ENCODER
  | Hasher => Command.Type_.HASHER
  | Script => Command.Type_.SCRIPT
  end.

(** [DecoderPlugin(name, author, dependencies)] and its three siblings *)
Definition construct {S} (c : plugin_class) (cls : AbstractPlugin.class)
    (name author : option string) (dependencies : option (list string))
  : M S AbstractPlugin.t :=
  match c with
  | Decoder => DecoderPlugin.init cls name author dependencies
  | Encoder => EncoderPlugin.init cls name author dependencies
  | Hasher => HasherPlugin.init cls name author dependencies
  | Script => ScriptPlugin.init cls name author dependencies
  end.

(** A callable that computes a value from its one string argument and
    does nothing else. *)
Definition value_callback (g : string -> value) : callable_fn :=
  fun a k =>
    match a with
    | [VStr s] => ret (g s)
    | _ => raise (TypeError "expected one str argument")
    end.

Definition is_str (v : value) : bool :=
  match v with
  | VStr _ => true
  | _ => false
  end.

(** [n] space characters *)
Fixpoint spaces (n : nat) : string :=
  match n with
  | O => EmptyString
  | S n' => String " " (spaces n')
  end.

(** The last character of a string, if it has one. *)
Fixpoint last_char (s : string) : option ascii :=
  match s with
  | EmptyString => None
  | String c EmptyString => Some c
  | String _ s' => last_char s'
  end.

(** Every character of [s] satisfies [p]. *)
Fixpoint all_chars (p : ascii -> bool) (s : string) : bool :=
  match s with
  | EmptyString => true
  | String c s' => p c && all_chars p s'
  end.

(** What [str.splitlines] still has to read after a carriage return:
    a line feed right after it belongs to the same boundary. *)
Definition after_cr (rest : string) : string :=
  match rest with
  | String c rest' => if Ascii.eqb c "010" then rest' else rest
  | EmptyString => rest
  end.

Definition not_linebreak (c : ascii) : bool := negb (is_linebreak c).

(** A character is a space or a line boundary. *)
Definition blank (c : ascii) : bool := Ascii.eqb c " " || is_linebreak c.

(** The only white space is the space character and the line
    boundaries. *)
Definition plain_whitespace (c : ascii) : bool :=
  negb (Described.is_whitespace c) || blank c.

(** The string a value is, the empty one for a value that is none. *)
Definition str_of (v : value) : string :=
  match v with
  | VStr s => s
  | _ => EmptyString
  end.

(** The tokens of a text, line after line. *)
Definition tokens_of (text : string) : list string :=
  concat (map Described.space_tokens (splitlines text)).

End Defs.
End Usage.

(** ** Concrete objects for the examples *)

Module Examples.

#[local] Existing Instance Posix.runtime.

Definition tab : string := String "009" EmptyString.

Definition newline : string := String "010" EmptyString.

Definition bracket (s : string) : string := ("[" ++ s ++ "]")%string.

(** A run hook that returns its first argument and leaves a mark in
    the world. *)
Definition echo : callable_fn :=
  fun a k w => (Ret (match a with v :: _ => v | [] => VNone end), "echo" :: w).

(** A [run] that answers how many keyword arguments it was given. *)
Definition count_keywords : callable_fn :=
  fun a k => ret (VInt (Z.of_nat (length k))).

Definition keyword_counter : AbstractPlugin.class :=
  AbstractPlugin.Class (Some count_keywords) None None.

Definition plugin (cls : AbstractPlugin.class) (dependencies : option (list string))
  : AbstractPlugin.t :=
  AbstractPlugin.Object (Some "Base64") (Some "Decoder") (Some "Thomas") dependencies cls.

(** A state with one builder, at reference 1, and an empty world. *)
Definition with_builder (o : Command.Builder.t) : Command.Builder.state :=
  Command.Builder.State {[1%positive := o]} [].

Definition base64_builder : Command.Builder.t :=
  Command.Builder.init (Some "Base64") (Some "Decoder") None (Some echo) None None.

Definition unnamed_builder : Command.Builder.t :=
  Command.Builder.init None (Some "Decoder") None (Some echo) None None.

Definition base64_command (author : option string) (run : callable_fn) : Command.t :=
  Command.init (Some "Base64") (Some "Decoder") author
    (Some (Command.DefaultTitle 1)) (Some (Command.Fn run))
    (Some (Command.DefaultSelect 1)) Command.Command_.

(** The builder and the state [build] leaves when it starts from
    [base64_builder]. *)
Definition built_builder : Command.Builder.t :=
  Command.Builder.init (Some "Base64") (Some "Decoder") None (Some echo)
    (Some (Command.DefaultSelect 1)) (Some (Command.DefaultTitle 1)).

Definition built_state : Command.Builder.state := with_builder built_builder.

(** The same state after [builder.name("Base32")]. *)
Definition renamed_state : Command.Builder.state :=
  with_builder
    (Command.Builder.init (Some "Base32") (Some "Decoder") None (Some echo)
       (Some (Command.DefaultSelect 1)) (Some (Command.DefaultTitle 1))).

(** A callback that brackets a token and refuses the empty string and
    strings with a space. *)
Definition picky_bracket : callable_fn :=
  fun a k =>
    match a with
    | [VStr s] =>
        if str_truth s && negb (has_char " " s) then ret (VStr (bracket s))
        else raise (OtherException "ValueError" "not a token")
    | _ => raise (TypeError "expected one str argument")
    end.

(** A callback that brackets a token and writes the token into the
    world. *)
Definition logging_bracket : callable_fn :=
  fun a k w =>
    match a with
    | [VStr s] => (Ret (VStr (bracket s)), s :: w)
    | _ => (Raise (TypeError "expected one str argument"), w)
    end.

(** A computation on tokens that answers [None] on one of them. *)
Definition none_for_cd (s : string) : value :=
  if String.eqb s "cd" then VNone else VStr s.

End Examples.

(** * Properties *)

Section Properties.
Context `{Runtime}.

(** Reducing the attribute reads of a builder that is known. *)
Ltac builder_attrs :=
  cbn [Command.Builder._name Command.Builder._type Command.Builder._author
       Command.Builder._run_method Command.Builder._select_method
       Command.Builder._title_method].

(** ** Identity of commands and plugins *)

Lemma str_eq_true (a b : option string) : str_eq a b = true <-> a = b.
Proof.
  destruct a as [x|], b as [y|]; simpl; try (split; congruence).
  rewrite String.eqb_eq. split; congruence.
Qed.

Lemma key_eq_true (k1 k2 : option string * option string) :
  key_eq k1 k2 = true <-> k1 = k2.
Proof.
  destruct k1 as [n1 t1], k2 as [n2 t2]. unfold key_eq; simpl.
  rewrite andb_true_iff, !str_eq_true. split.
  - intros [-> ->]. reflexivity.
  - intros [= -> ->]. split; reflexivity.
Qed.

Lemma command_eq_true (x y : Command.t) :
  Command.eq x y = true <-> Command.name x = Command.name y /\ Command.type x = Command.type y.
Proof.
  unfold Command.eq. rewrite key_eq_true. unfold Command.key, Command.name, Command.type.
  split; [intros [= -> ->]; split; reflexivity | intros [-> ->]; reflexivity].
Qed.

Lemma plugin_eq_true (x y : AbstractPlugin.t) :
  AbstractPlugin.eq x y = true <->
  AbstractPlugin.name x = AbstractPlugin.name y /\ AbstractPlugin.type x = AbstractPlugin.type y.
Proof.
  unfold AbstractPlugin.eq. rewrite key_eq_true.
  unfold AbstractPlugin.key, AbstractPlugin.name, AbstractPlugin.type.
  split; [intros [= -> ->]; split; reflexivity | intros [-> ->]; reflexivity].
Qed.

(** C1. Two commands, and likewise two plugins, are equal and have the
    same hash exactly when their names and their types agree; the
    author and the hooks play no part, so commands that share name and
    type are equal and hash alike whatever their authors and hooks. *)
Theorem C1_identity_is_name_and_type :
  (forall x y : Command.t,
     (Command.eq x y = true /\ Command.hash_ x = Command.hash_ y) <->
     (Command.name x = Command.name y /\ Command.type x = Command.type y)) /\
  (forall x y : AbstractPlugin.t,
     (AbstractPlugin.eq x y = true /\ AbstractPlugin.hash_ x = AbstractPlugin.hash_ y) <->
     (AbstractPlugin.name x = AbstractPlugin.name y /\
      AbstractPlugin.type x = AbstractPlugin.type y)) /\
  (forall name type author1 author2 title1 title2 run1 run2 select1 select2 cls1 cls2,
     let x := Command.init name type author1 title1 run1 select1 cls1 in
     let y := Command.init name type author2 title2 run2 select2 cls2 in
     Command.eq x y = true /\ Command.hash_ x = Command.hash_ y) /\
  (forall name type author1 author2 deps1 deps2 cls1 cls2,
     let x := AbstractPlugin.Object name type author1 deps1 cls1 in
     let y := AbstractPlugin.Object name type author2 deps2 cls2 in
     AbstractPlugin.eq x y = true /\ AbstractPlugin.hash_ x = AbstractPlugin.hash_ y).
Proof.
  split; [|split; [|split]].
  - intros x y. rewrite command_eq_true. split; [tauto|].
    intros [Hn Ht]. split; [tauto|].
    unfold Command.hash_, Command.key. unfold Command.name, Command.type in *. congruence.
  - intros x y. rewrite plugin_eq_true. split; [tauto|].
    intros [Hn Ht]. split; [tauto|].
    unfold AbstractPlugin.hash_, AbstractPlugin.key.
    unfold AbstractPlugin.name, AbstractPlugin.type in *. congruence.
  - intros. split; [|reflexivity]. apply command_eq_true. split; reflexivity.
  - intros. split; [|reflexivity]. apply plugin_eq_true. split; reflexivity.
Qed.

(** ** Running and selecting *)

(** C10. [Command.run] and [Command.select] take keyword arguments and
    drop them: the stored hook is called with the positional arguments
    and no keyword argument, so the outcome does not depend on the
    keyword arguments given; the same holds of the default select hook
    that [Builder.build] supplies, which calls the builder's run hook
    with the positional arguments only. *)
Theorem C10_keyword_arguments_are_dropped :
  (forall (c : Command.t) (a : args) (k : kwargs) s,
     Command.run c a k s = Command.call (Command._run_method c) a [] s /\
     Command.select c a k s = Command.call (Command._select_method c) a [] s) /\
  (forall (c : Command.t) (a : args) (k1 k2 : kwargs) s,
     Command.run c a k1 s = Command.run c a k2 s /\
     Command.select c a k1 s = Command.select c a k2 s) /\
  (forall (c : Command.t) (f : callable_fn) (a : args) (k : kwargs) s,
     (Command._run_method c = Some (Command.Fn f) ->
      Command.run c a k s = Command.Builder.lift (f a []) s) /\
     (Command._select_method c = Some (Command.Fn f) ->
      Command.select c a k s = Command.Builder.lift (f a []) s)) /\
  (forall (b : positive) (o : Command.Builder.t) (r : callable_fn) (a : args) (k : kwargs) s,
     Command.Builder.builders s !! b = Some o ->
     Command.Builder._run_method o = Some r ->
     Command.call (Some (Command.DefaultSelect b)) a k s
     = (Command.Builder.lift (r a []) ;;; ret VNone) s).
Proof.
  split; [|split; [|split]].
  - intros. split; reflexivity.
  - intros. split; reflexivity.
  - intros c f a k s. unfold Command.run, Command.select.
    split; intros ->; reflexivity.
  - intros b o r a k s Hb Hr. unfold Command.call, bind, Command.Builder.get.
    rewrite Hb, Hr. reflexivity.
Qed.

(** C9. Running or selecting a [NullCommand] returns [None], raises
    nothing and leaves builders and world as they were, whatever the
    arguments, also when the call goes through the hooks that the
    constructor stored; its name, type and author are empty strings. *)
Theorem C9_null_command_does_nothing :
  let c := NullCommand.new in
  (forall (a : args) (k : kwargs) s,
     NullCommand.run c a k s = (Ret VNone, s) /\
     NullCommand.select c a k s = (Ret VNone, s) /\
     Send.run c a k s = (Ret VNone, s) /\
     Send.select c a k s = (Ret VNone, s) /\
     Command.call (Command._run_method c) a k s = (Ret VNone, s) /\
     Command.call (Command._select_method c) a k s = (Ret VNone, s)) /\
  Command.name c = Some EmptyString /\
  Command.type c = Some EmptyString /\
  Command.author c = Some EmptyString.
Proof.
  repeat split.
Qed.

(** ** Plugins *)

(** C8. A plugin made by the constructor of [DecoderPlugin] has the
    type ["Decoder"], for every name, author and list of dependencies
    the constructor accepts (it accepts every non-empty name and
    author, and has no parameter for the type); the inherited
    [can_be_decoded] answers [False] on every input. *)
Theorem C8_decoder_plugin :
  (forall S cls name author deps (s s' : S) p,
     DecoderPlugin.init cls name author deps s = (Ret p, s') ->
     AbstractPlugin.type p = Some "Decoder") /\
  (forall S cls c n c' a deps (s : S),
     exists p,
       DecoderPlugin.init cls (Some (String c n)) (Some (String c' a)) deps s = (Ret p, s) /\
       AbstractPlugin.type p = Some "Decoder") /\
  (forall p input w,
     DecoderPlugin.can_be_decoded p input w = (Ret false, w)) /\
  (forall p input w,
     AbstractPlugin.def_can_be_decoded (AbstractPlugin.class_of p) = None ->
     DecoderPlugin.send_can_be_decoded p input w = (Ret false, w)).
Proof.
  split; [|split; [|split]].
  - intros S cls name author deps s s' p.
    unfold DecoderPlugin.init, AbstractPlugin.init, bind, assert_.
    destruct name as [[|c n]|]; simpl; try discriminate.
    destruct author as [[|c' a]|]; simpl; try discriminate.
    intros [= <- _]. reflexivity.
  - intros. eexists. split; reflexivity.
  - reflexivity.
  - intros p input w Hcls. unfold DecoderPlugin.send_can_be_decoded.
    rewrite Hcls. reflexivity.
Qed.

(** C7 (as amended). [run] of the base class raises
    [NotImplementedError] on every input, and so does a call of [run]
    on a plugin whose class does not define it; the inherited [select]
    calls [run] with the same positional arguments, without the keyword
    arguments it was given, and returns what [run] returns, so that
    [select(input)] is [run(input)]. *)
Theorem C7_run_unimplemented_select_forwards_positional :
  (forall self a k w,
     AbstractPlugin.run self a k w
     = (Raise (NotImplementedError "Method must be implemented from upper class"), w)) /\
  (forall self a k w,
     AbstractPlugin.def_run (AbstractPlugin.class_of self) = None ->
     AbstractPlugin.send_run self a k w
     = (Raise (NotImplementedError "Method must be implemented from upper class"), w)) /\
  (forall self a k w,
     AbstractPlugin.def_select (AbstractPlugin.class_of self) = None ->
     AbstractPlugin.send_select self a k w = AbstractPlugin.send_run self a [] w) /\
  (forall self input w,
     AbstractPlugin.def_select (AbstractPlugin.class_of self) = None ->
     AbstractPlugin.send_select self [input] [] w = AbstractPlugin.send_run self [input] [] w).
Proof.
  assert (Hfwd : forall self a k w,
             AbstractPlugin.def_select (AbstractPlugin.class_of self) = None ->
             AbstractPlugin.send_select self a k w = AbstractPlugin.send_run self a [] w).
  { intros self a k w Hsel. unfold AbstractPlugin.send_select. rewrite Hsel. reflexivity. }
  split; [|split; [|split]].
  - reflexivity.
  - intros self a k w Hrun. unfold AbstractPlugin.send_run. rewrite Hrun. reflexivity.
  - exact Hfwd.
  - intros self input w. apply Hfwd.
Qed.

(** ** Building a command *)

Lemma len_pos_true (s : string) : len_pos s = true <-> s <> EmptyString.
Proof.
  destruct s as [|c s]; split; intros Hs.
  - discriminate Hs.
  - contradiction Hs. reflexivity.
  - discriminate.
  - reflexivity.
Qed.

Lemma builder_eta (o : Command.Builder.t) :
  Command.Builder.init (Command.Builder._name o) (Command.Builder._type o)
    (Command.Builder._author o) (Command.Builder._run_method o)
    (Command.Builder._select_method o) (Command.Builder._title_method o) = o.
Proof. destruct o; reflexivity. Qed.

Lemma bind_unfold {S A B} (m : M S A) (k : A -> M S B) s :
  bind m k s
  = match m s with
    | (Ret a, s') => k a s'
    | (Raise e, s') => (Raise e, s')
    end.
Proof. reflexivity. Qed.

Lemma ret_unfold {S A} (a : A) (s : S) : ret a s = (Ret a, s).
Proof. reflexivity. Qed.

Lemma bind_Ret {S A B} (m : M S A) (k : A -> M S B) s a s' :
  m s = (Ret a, s') -> bind m k s = k a s'.
Proof. unfold bind. intros ->. reflexivity. Qed.

Lemma bind_Raise {S A B} (m : M S A) (k : A -> M S B) s e s' :
  m s = (Raise e, s') -> bind m k s = (Raise e, s').
Proof. unfold bind. intros ->. reflexivity. Qed.

Lemma bind_ret {S A B} (a : A) (k : A -> M S B) s : bind (ret a) k s = k a s.
Proof. reflexivity. Qed.

Lemma bind_assert_true {S B} msg (k : unit -> M S B) s :
  bind (assert_ true msg) k s = k tt s.
Proof. reflexivity. Qed.

Lemma bind_assert_false {S B} msg (k : unit -> M S B) s :
  bind (assert_ false msg) k s = (Raise (AssertionError msg), s).
Proof. reflexivity. Qed.

Lemma is_Some_true {A} (a : A) : bool_decide (is_Some (Some a)) = true.
Proof. apply bool_decide_eq_true_2. eauto. Qed.

Lemma is_Some_false {A} : bool_decide (is_Some (@None A)) = false.
Proof. apply bool_decide_eq_false_2. intros [a Ha]. discriminate Ha. Qed.

Lemma get_Some s b o :
  Command.Builder.builders s !! b = Some o -> Command.Builder.get b s = (Ret o, s).
Proof. unfold Command.Builder.get. intros ->. reflexivity. Qed.

Lemma get_insert bs w b o :
  Command.Builder.get b (Command.Builder.State (<[b := o]> bs) w)
  = (Ret o, Command.Builder.State (<[b := o]> bs) w).
Proof. apply get_Some. simpl. apply lookup_insert_eq. Qed.

Lemma set_select_method_Some s b o v :
  Command.Builder.builders s !! b = Some o ->
  Command.Builder.set_select_method b v s
  = (Ret tt,
     Command.Builder.State
       (<[b := Command.Builder.init (Command.Builder._name o) (Command.Builder._type o)
                 (Command.Builder._author o) (Command.Builder._run_method o) v
                 (Command.Builder._title_method o)]> (Command.Builder.builders s))
       (Command.Builder.world s)).
Proof.
  intros Hb. unfold Command.Builder.set_select_method.
  rewrite (bind_Ret _ _ _ _ _ (get_Some _ _ _ Hb)). reflexivity.
Qed.

Lemma set_title_method_Some s b o v :
  Command.Builder.builders s !! b = Some o ->
  Command.Builder.set_title_method b v s
  = (Ret tt,
     Command.Builder.State
       (<[b := Command.Builder.init (Command.Builder._name o) (Command.Builder._type o)
                 (Command.Builder._author o) (Command.Builder._run_method o)
                 (Command.Builder._select_method o) v]> (Command.Builder.builders s))
       (Command.Builder.world s)).
Proof.
  intros Hb. unfold Command.Builder.set_title_method.
  rewrite (bind_Ret _ _ _ _ _ (get_Some _ _ _ Hb)). reflexivity.
Qed.

(** What [build] returns and leaves behind when the three required
    attributes are set. *)
Lemma build_returns s b o n t r :
  Command.Builder.builders s !! b = Some o ->
  Command.Builder._name o = Some n -> n <> EmptyString ->
  Command.Builder._type o = Some t ->
  Command.Builder._run_method o = Some r ->
  let sel := default (Command.DefaultSelect b) (Command.Builder._select_method o) in
  let ti := default (Command.DefaultTitle b) (Command.Builder._title_method o) in
  Command.Builder.build b s
  = (Ret (Command.init (Some n) (Some t) (Command.Builder._author o)
            (Some ti) (Some (Command.Fn r)) (Some sel) Command.Command_),
     Command.Builder.State
       (<[b := Command.Builder.init (Some n) (Some t) (Command.Builder._author o)
                 (Some r) (Some sel) (Some ti)]> (Command.Builder.builders s))
       (Command.Builder.world s)).
Proof.
  intros Hb Hn Hne Ht Hr sel ti. subst sel ti.
  destruct o as [on ot oa orun osel oti]. simpl in Hn, Ht, Hr. subst.
  apply len_pos_true in Hne.
  unfold Command.Builder.build.
  rewrite (bind_Ret _ _ _ _ _ (get_Some _ _ _ Hb)). builder_attrs.
  rewrite Hne, !is_Some_true, !bind_assert_true.
  destruct osel as [sel|]; builder_attrs.
  - rewrite bind_ret, (bind_Ret _ _ _ _ _ (get_Some _ _ _ Hb)). builder_attrs.
    destruct oti as [ti|].
    + rewrite bind_ret, (bind_Ret _ _ _ _ _ (get_Some _ _ _ Hb)). builder_attrs.
      rewrite (insert_id _ b _ Hb). destruct s; reflexivity.
    + rewrite (bind_Ret _ _ _ _ _ (set_title_method_Some _ _ _ _ Hb)).
      rewrite (bind_Ret _ _ _ _ _ (get_insert _ _ _ _)). reflexivity.
  - rewrite (bind_Ret _ _ _ _ _ (set_select_method_Some _ _ _ _ Hb)).
    rewrite (bind_Ret _ _ _ _ _ (get_insert _ _ _ _)). builder_attrs.
    destruct oti as [ti|].
    + rewrite bind_ret, (bind_Ret _ _ _ _ _ (get_insert _ _ _ _)). reflexivity.
    + erewrite bind_Ret
        by (apply set_title_method_Some; cbn [Command.Builder.builders];
            apply lookup_insert_eq).
      cbn [Command.Builder.builders Command.Builder.world]. builder_attrs.
      rewrite insert_insert_eq.
      rewrite (bind_Ret _ _ _ _ _ (get_insert _ _ _ _)). reflexivity.
Qed.

Lemma new_fresh s :
  let b := fresh (dom (Command.Builder.builders s)) in
  Command.Builder.new s
  = (Ret b,
     Command.Builder.State
       (<[b := Command.Builder.init None None None None None None]>
          (Command.Builder.builders s))
       (Command.Builder.world s)).
Proof. reflexivity. Qed.

(** Each fluent setter returns the builder and changes its attribute. *)
Ltac setter_insert :=
  rewrite !bind_unfold, get_insert;
  unfold Command.Builder.put; cbn [Command.Builder.builders Command.Builder.world];
  rewrite insert_insert_eq; reflexivity.


Lemma name_insert bs w b o v :
  Command.Builder.name b v (Command.Builder.State (<[b := o]> bs) w)
  = (Ret b,
     Command.Builder.State
       (<[b := Command.Builder.init v (Command.Builder._type o) (Command.Builder._author o)
                 (Command.Builder._run_method o) (Command.Builder._select_method o)
                 (Command.Builder._title_method o)]> bs) w).
Proof. unfold Command.Builder.name, Command.Builder.set_name. setter_insert. Qed.

Lemma type_insert bs w b o v :
  Command.Builder.type b v (Command.Builder.State (<[b := o]> bs) w)
  = (Ret b,
     Command.Builder.State
       (<[b := Command.Builder.init (Command.Builder._name o) v (Command.Builder._author o)
                 (Command.Builder._run_method o) (Command.Builder._select_method o)
                 (Command.Builder._title_method o)]> bs) w).
Proof. unfold Command.Builder.type, Command.Builder.set_type. setter_insert. Qed.

Lemma author_insert bs w b o v :
  Command.Builder.author b v (Command.Builder.State (<[b := o]> bs) w)
  = (Ret b,
     Command.Builder.State
       (<[b := Command.Builder.init (Command.Builder._name o) (Command.Builder._type o) v
                 (Command.Builder._run_method o) (Command.Builder._select_method o)
                 (Command.Builder._title_method o)]> bs) w).
Proof. unfold Command.Builder.author, Command.Builder.set_author. setter_insert. Qed.

Lemma run_insert bs w b o v :
  Command.Builder.run b v (Command.Builder.State (<[b := o]> bs) w)
  = (Ret b,
     Command.Builder.State
       (<[b := Command.Builder.init (Command.Builder._name o) (Command.Builder._type o)
                 (Command.Builder._author o) v (Command.Builder._select_method o)
                 (Command.Builder._title_method o)]> bs) w).
Proof. unfold Command.Builder.run, Command.Builder.set_run_method. setter_insert. Qed.

(** C2. With a non-empty name, a type and a run hook set, [build]
    returns a command whose name, type and author are the builder's;
    so the command built from a name, a type, an author and a run hook
    has exactly these, and the one built without a call of the author
    setter has the author [None], which counts as empty. *)
Theorem C2_build_returns_the_settings :
  (forall s b o n t r,
     Command.Builder.builders s !! b = Some o ->
     Command.Builder._name o = Some n -> n <> EmptyString ->
     Command.Builder._type o = Some t ->
     Command.Builder._run_method o = Some r ->
     exists c s',
       Command.Builder.build b s = (Ret c, s') /\
       Command.name c = Some n /\ Command.type c = Some t /\
       Command.author c = Command.Builder._author o /\
       Command.Builder.world s' = Command.Builder.world s) /\
  (forall s n t a r,
     n <> EmptyString ->
     exists c s',
       Described.built_with_author n t a r s = (Ret c, s') /\
       Command.name c = Some n /\ Command.type c = Some t /\ Command.author c = Some a) /\
  (forall s n t r,
     n <> EmptyString ->
     exists c s',
       Described.built_without_author n t r s = (Ret c, s') /\
       Command.name c = Some n /\ Command.type c = Some t /\
       Command.author c = None /\ opt_str_truth (Command.author c) = false).
Proof.
  split; [|split].
  - intros s b o n t r Hb Hn Hne Ht Hr.
    do 2 eexists. split; [apply (build_returns s b o n t r); assumption|].
    repeat split.
  - intros s n t a r Hne. unfold Described.built_with_author.
    rewrite (bind_Ret _ _ _ _ _ (new_fresh s)).
    rewrite (bind_Ret _ _ _ _ _ (name_insert _ _ _ _ _)).
    rewrite (bind_Ret _ _ _ _ _ (type_insert _ _ _ _ _)).
    rewrite (bind_Ret _ _ _ _ _ (author_insert _ _ _ _ _)).
    rewrite (bind_Ret _ _ _ _ _ (run_insert _ _ _ _ _)).
    do 2 eexists. split.
    + eapply build_returns; [apply lookup_insert_eq|reflexivity|assumption|reflexivity..].
    + repeat split.
  - intros s n t r Hne. unfold Described.built_without_author.
    rewrite (bind_Ret _ _ _ _ _ (new_fresh s)).
    rewrite (bind_Ret _ _ _ _ _ (name_insert _ _ _ _ _)).
    rewrite (bind_Ret _ _ _ _ _ (type_insert _ _ _ _ _)).
    rewrite (bind_Ret _ _ _ _ _ (run_insert _ _ _ _ _)).
    do 2 eexists. split.
    + eapply build_returns; [apply lookup_insert_eq|reflexivity|assumption|reflexivity..].
    + repeat split.
Qed.

Lemma str_in_true (x : option string) (l : list string) :
  str_in x l = true <-> exists y, y ∈ l /\ x = Some y.
Proof.
  unfold str_in. rewrite existsb_exists. split.
  - intros [y [Hin Heq]]. exists y. split; [apply list_elem_of_In, Hin|].
    apply str_eq_true, Heq.
  - intros [y [Hin ->]]. exists y. split; [apply list_elem_of_In, Hin|].
    apply str_eq_true. reflexivity.
Qed.

Lemma str_in_false (x : option string) (l : list string) :
  (forall y, y ∈ l -> x <> Some y) -> str_in x l = false.
Proof.
  intros Hnot. apply not_true_is_false. rewrite str_in_true.
  intros [y [Hin Heq]]. exact (Hnot y Hin Heq).
Qed.

(** C3. [build] raises [AssertionError], and leaves the state as it
    was, whenever the builder's name is [None] or empty, its type is
    [None] or its run hook is [None]; the constructor of
    [AbstractPlugin] raises [AssertionError] whenever the name or the
    author is [None] or empty, or the type is none of [Decoder],
    [Encoder], [Hasher] and [Script]. *)
Theorem C3_construction_fails_on_violated_preconditions :
  (forall s b o,
     Command.Builder.builders s !! b = Some o ->
     Command.Builder._name o = None \/ Command.Builder._name o = Some EmptyString \/
     Command.Builder._type o = None \/ Command.Builder._run_method o = None ->
     exists msg, Command.Builder.build b s = (Raise (AssertionError msg), s)) /\
  (forall S cls name type author deps (s : S),
     name = None \/ name = Some EmptyString \/
     author = None \/ author = Some EmptyString \/
     (forall t, t ∈ [Command.Type_.DECODER; Command.Type_.ENCODER;
                     Command.Type_.HASHER; Command.Type_.SCRIPT] -> type <> Some t) ->
     exists msg,
       AbstractPlugin.init cls name type author deps s = (Raise (AssertionError msg), s)).
Proof.
  split.
  - intros s b o Hb Hbad. unfold Command.Builder.build.
    rewrite (bind_Ret _ _ _ _ _ (get_Some _ _ _ Hb)).
    destruct (Command.Builder._name o) as [[|c n]|] eqn:Hn;
      try (rewrite bind_assert_false; eexists; reflexivity).
    change (len_pos (String c n)) with true. rewrite bind_assert_true.
    destruct (Command.Builder._type o) as [t|] eqn:Ht;
      [rewrite is_Some_true, bind_assert_true
      |rewrite is_Some_false, bind_assert_false; eexists; reflexivity].
    destruct (Command.Builder._run_method o) as [r|] eqn:Hr;
      [|rewrite is_Some_false, bind_assert_false; eexists; reflexivity].
    exfalso. destruct Hbad as [Hbad|[Hbad|[Hbad|Hbad]]]; discriminate Hbad.
  - intros S cls name type author deps s Hbad. unfold AbstractPlugin.init.
    destruct name as [[|c n]|];
      try (rewrite bind_assert_false; eexists; reflexivity).
    change (len_pos (String c n)) with true. rewrite bind_assert_true.
    destruct (str_in type _) eqn:Hty;
      [rewrite bind_assert_true|rewrite bind_assert_false; eexists; reflexivity].
    destruct author as [[|c' a]|];
      try (rewrite bind_assert_false; eexists; reflexivity).
    exfalso. destruct Hbad as [Hbad|[Hbad|[Hbad|[Hbad|Hbad]]]]; try discriminate Hbad.
    rewrite (str_in_false _ _ Hbad) in Hty. discriminate Hty.
Qed.

(** C6 (as amended). A command built without a select hook gets one
    that calls the run hook the builder holds when [select] is called,
    with the positional arguments, lets an exception of that hook
    through and otherwise returns [None] instead of its result; a
    command built without a title hook gets one that returns the name
    the builder holds when [title] is called, a space and the
    capitalized type the builder holds then.  [build] leaves the
    builder with the name, the type and the run hook of the command, so
    as long as the builder is as [build] left it the default select
    runs the command's run hook and the default title is the command's
    name, a space and its capitalized type; the title of a plugin has
    this format. *)
Theorem C6_default_hooks_read_the_builder :
  (forall s b o n t r,
     Command.Builder.builders s !! b = Some o ->
     Command.Builder._name o = Some n -> n <> EmptyString ->
     Command.Builder._type o = Some t ->
     Command.Builder._run_method o = Some r ->
     exists c s',
       Command.Builder.build b s = (Ret c, s') /\
       Command.name c = Some n /\ Command.type c = Some t /\
       (exists o',
          Command.Builder.builders s' !! b = Some o' /\
          Command.Builder._name o' = Some n /\ Command.Builder._type o' = Some t /\
          Command.Builder._run_method o' = Some r) /\
       (Command.Builder._select_method o = None ->
        forall s2 o2 a k,
          Command.Builder.builders s2 !! b = Some o2 ->
          Command.select c a k s2
          = match Command.Builder._run_method o2 with
            | None => (Raise (TypeError "'NoneType' object is not callable"), s2)
            | Some r2 =>
                match r2 a [] (Command.Builder.world s2) with
                | (Ret _, w) =>
                    (Ret VNone, Command.Builder.State (Command.Builder.builders s2) w)
                | (Raise e, w) =>
                    (Raise e, Command.Builder.State (Command.Builder.builders s2) w)
                end
            end) /\
       (Command.Builder._title_method o = None ->
        forall s2 o2,
          Command.Builder.builders s2 !! b = Some o2 ->
          Command.title c s2
          = match Command.Builder._type o2 with
            | None =>
                (Raise (AttributeError "'NoneType' object has no attribute 'capitalize'"), s2)
            | Some t2 =>
                (Ret (VStr (format_field (Command.Builder._name o2) ++ " " ++ capitalize t2)),
                 s2)
            end) /\
       (Command.Builder._select_method o = None ->
        forall a k,
          Command.select c a k s'
          = match r a [] (Command.Builder.world s') with
            | (Ret _, w) => (Ret VNone, Command.Builder.State (Command.Builder.builders s') w)
            | (Raise e, w) => (Raise e, Command.Builder.State (Command.Builder.builders s') w)
            end) /\
       (Command.Builder._title_method o = None ->
        Command.title c s' = (Ret (VStr (n ++ " " ++ capitalize t)), s'))) /\
  (forall S cls name type author deps (s s' : S) p,
     AbstractPlugin.init cls name type author deps s = (Ret p, s') ->
     exists n t,
       name = Some n /\ type = Some t /\
       forall S' (s0 : S'),
         AbstractPlugin.title p s0 = (Ret (n ++ " " ++ capitalize t)%string, s0)).
Proof.
  assert (Hselect : forall b a s2 o2,
             Command.Builder.builders s2 !! b = Some o2 ->
             Command.call (Some (Command.DefaultSelect b)) a [] s2
             = match Command.Builder._run_method o2 with
               | None => (Raise (TypeError "'NoneType' object is not callable"), s2)
               | Some r2 =>
                   match r2 a [] (Command.Builder.world s2) with
                   | (Ret _, w) =>
                       (Ret VNone, Command.Builder.State (Command.Builder.builders s2) w)
                   | (Raise e, w) =>
                       (Raise e, Command.Builder.State (Command.Builder.builders s2) w)
                   end
               end).
  { intros b a s2 o2 Hb2. unfold Command.call.
    rewrite (bind_Ret _ _ _ _ _ (get_Some _ _ _ Hb2)).
    destruct (Command.Builder._run_method o2) as [r2|]; [|reflexivity].
    unfold bind, Command.Builder.lift.
    destruct (r2 a [] (Command.Builder.world s2)) as [[v|e] w]; reflexivity. }
  assert (Htitle : forall b s2 o2,
             Command.Builder.builders s2 !! b = Some o2 ->
             Command.call (Some (Command.DefaultTitle b)) [] [] s2
             = match Command.Builder._type o2 with
               | None =>
                   (Raise (AttributeError "'NoneType' object has no attribute 'capitalize'"),
                    s2)
               | Some t2 =>
                   (Ret (VStr (format_field (Command.Builder._name o2) ++ " "
                               ++ capitalize t2)), s2)
               end).
  { intros b s2 o2 Hb2. unfold Command.call.
    rewrite (bind_Ret _ _ _ _ _ (get_Some _ _ _ Hb2)).
    destruct (Command.Builder._type o2); reflexivity. }
  split.
  - intros s b o n t r Hb Hn Hne Ht Hr.
    do 2 eexists. split; [apply (build_returns s b o n t r); assumption|].
    split; [reflexivity|]. split; [reflexivity|].
    split; [eexists; split; [cbn [Command.Builder.builders]; apply lookup_insert_eq|];
            repeat split|].
    split; [|split; [|split]].
    + intros Hsel s2 o2 a k Hb2. rewrite Hsel. apply Hselect, Hb2.
    + intros Hti s2 o2 Hb2. rewrite Hti. apply Htitle, Hb2.
    + intros Hsel a k. rewrite Hsel. unfold Command.select, default.
      cbn [Command._select_method].
      rewrite (Hselect b a _ _ (lookup_insert_eq _ _ _)). reflexivity.
    + intros Hti. rewrite Hti. unfold Command.title, default.
      cbn [Command._title_method].
      rewrite (Htitle b _ _ (lookup_insert_eq _ _ _)). reflexivity.
  - intros S cls name type author deps s s' p.
    unfold AbstractPlugin.init.
    destruct name as [[|c n]|]; try (rewrite bind_assert_false; discriminate).
    change (len_pos (String c n)) with true. rewrite bind_assert_true.
    destruct (str_in type _) eqn:Hty;
      [rewrite bind_assert_true|rewrite bind_assert_false; discriminate].
    destruct author as [[|c' a]|]; try (rewrite bind_assert_false; discriminate).
    change (len_pos (String c' a)) with true. rewrite bind_assert_true.
    intros [= <- _].
    apply str_in_true in Hty. destruct Hty as [t [_ ->]].
    exists (String c n), t. repeat split.
Qed.

(** X19. The default hooks read the builder when they are called: a
    builder that is given another name after [build] changes the title
    of the command it has built, not its name. *)
Remark default_title_follows_the_builder s b o n t r n' :
  Command.Builder.builders s !! b = Some o ->
  Command.Builder._name o = Some n -> n <> EmptyString ->
  Command.Builder._type o = Some t ->
  Command.Builder._run_method o = Some r ->
  Command.Builder._title_method o = None ->
  exists c s1 s2,
    Command.Builder.build b s = (Ret c, s1) /\
    Command.Builder.name b (Some n') s1 = (Ret b, s2) /\
    Command.name c = Some n /\
    Command.title c s2 = (Ret (VStr (n' ++ " " ++ capitalize t)), s2).
Proof.
  intros Hb Hn Hne Ht Hr Hti.
  do 3 eexists. split; [apply (build_returns s b o n t r); assumption|].
  split; [apply name_insert|]. split; [reflexivity|].
  rewrite Hti. unfold Command.title, Command.call, default.
  cbn [Command._title_method].
  rewrite (bind_Ret _ _ _ _ _ (get_insert _ _ _ _)). builder_attrs.
  reflexivity.
Qed.

(** ** Dependencies *)

(** The body of the loop of [check_dependencies]. *)
Lemma try_import unresolved name w :
  try_except_Exception
    (import_module name ;;; ret unresolved)
    (fun _ => ret (unresolved ++ [name])) w
  = match import_module name w with
    | (Ret _, w') => (Ret unresolved, w')
    | (Raise e, w') =>
        if is_Exception e then (Ret (unresolved ++ [name]), w') else (Raise e, w')
    end.
Proof.
  unfold try_except_Exception, bind.
  destruct (import_module name w) as [[[]|e] w']; reflexivity.
Qed.

Lemma unresolved_cons name r attempts :
  Described.unresolved ((name, r) :: attempts)
  = (if Described.failed r then [name] else []) ++ Described.unresolved attempts.
Proof.
  unfold Described.unresolved. rewrite filter_cons. simpl.
  destruct r as [[]|e]; simpl; reflexivity.
Qed.

Lemma imports_cons name names w :
  Described.imports (name :: names) w
  = ((name, fst (import_module name w))
       :: fst (Described.imports names (snd (import_module name w))),
     snd (Described.imports names (snd (import_module name w)))).
Proof.
  simpl. destruct (import_module name w) as [r w']. simpl.
  destruct (Described.imports names w') as [rs w'']. reflexivity.
Qed.

Lemma check_loop_returns names :
  forall acc w,
    Forall (fun a => Described.escapes (snd a) = false) (fst (Described.imports names w)) ->
    for_each names acc
      (fun unresolved name =>
         try_except_Exception
           (import_module name ;;; ret unresolved)
           (fun _ => ret (unresolved ++ [name]))) w
    = (Ret (acc ++ Described.unresolved (fst (Described.imports names w))),
       snd (Described.imports names w)).
Proof.
  induction names as [|name names IH]; intros acc w Hall.
  - simpl. rewrite app_nil_r. reflexivity.
  - rewrite imports_cons in *. cbn [fst snd] in *.
    apply Forall_cons in Hall. destruct Hall as [Hhere Hrest]. cbn [snd] in Hhere.
    cbn [for_each]. unfold bind at 1. rewrite try_import.
    rewrite unresolved_cons.
    destruct (import_module name w) as [[[]|e] w']; cbn [fst snd] in *.
    + rewrite (IH acc w' Hrest). reflexivity.
    + simpl in Hhere. apply negb_false_iff in Hhere. rewrite Hhere.
      rewrite (IH (acc ++ [name]) w' Hrest). simpl. rewrite <- app_assoc. reflexivity.
Qed.


Lemma unresolved_sublist names :
  forall w, Described.unresolved (fst (Described.imports names w)) `sublist_of` names.
Proof.
  induction names as [|name names IH]; intros w.
  - apply sublist_nil_l.
  - rewrite imports_cons. cbn [fst]. rewrite unresolved_cons.
    destruct (Described.failed _); simpl.
    + apply sublist_skip, IH.
    + apply sublist_cons, IH.
Qed.



(** ** Line by line, token by token *)

(** The inner loop of [_run_lines]: the callback on the parts that are
    not empty, in order. *)
Lemma tokens_loop (callback : callable_fn) parts :
  forall acc w,
    for_each parts acc
      (fun result text_part =>
         if str_truth text_part then
           v <- callback [VStr text_part] [] ;;
           ret (result ++ [v])
         else ret result) w
    = (vs <- Described.map_m (fun token => callback [VStr token] [])
               (filter (fun part => str_truth part = true) parts) ;;
       ret (acc ++ vs)) w.
Proof.
  induction parts as [|part parts IH]; intros acc w.
  - cbn [for_each filter Described.map_m]. rewrite filter_nil.
    cbn [Described.map_m]. rewrite bind_unfold, !ret_unfold, app_nil_r. reflexivity.
  - cbn [for_each]. rewrite filter_cons.
    destruct (str_truth part) eqn:Hpart.
    + destruct (decide (true = true)) as [_|Hne]; [|contradiction Hne; reflexivity].
      cbn [Described.map_m]. rewrite !bind_unfold.
      destruct (callback [VStr part] [] w) as [[v|e] w1]; [|reflexivity].
      rewrite ret_unfold, IH, !bind_unfold.
      destruct (Described.map_m _ _ w1) as [[vs|e] w2]; [|reflexivity].
      rewrite !ret_unfold, <- app_assoc. reflexivity.
    + destruct (decide (false = true)) as [Hne|_]; [discriminate Hne|].
      rewrite bind_unfold, ret_unfold. apply IH.
Qed.

(** The outer loop: one joined line per line of the text. *)
Lemma lines_loop (callback : callable_fn) lines :
  forall acc w,
    for_each lines acc
      (fun lines text_line =>
         result <- for_each (split " " text_line) []
           (fun result text_part =>
              if str_truth text_part then
                v <- callback [VStr text_part] [] ;;
                ret (result ++ [v])
              else ret result) ;;
         line <- str_join " " result ;;
         ret (lines ++ [line])) w
    = (ls <- Described.map_m
               (fun line =>
                  results <- Described.map_m (fun token => callback [VStr token] [])
                               (Described.space_tokens line) ;;
                  str_join " " results)
               lines ;;
       ret (acc ++ ls)) w.
Proof.
  induction lines as [|line lines IH]; intros acc w.
  - cbn [for_each Described.map_m]. rewrite bind_unfold, !ret_unfold, app_nil_r. reflexivity.
  - cbn [for_each Described.map_m]. rewrite !bind_unfold, tokens_loop, bind_unfold.
    unfold Described.space_tokens.
    destruct (Described.map_m _ (filter (fun part => str_truth part = true) (split " " line)) w)
      as [[vs|e] w1]; [|reflexivity].
    rewrite ret_unfold. cbn [app]. rewrite !bind_unfold.
    destruct (str_join " " vs w1) as [[l|e] w2]; [|reflexivity].
    rewrite ret_unfold, IH, !bind_unfold.
    destruct (Described.map_m _ lines w2) as [[ls|e] w3]; [|reflexivity].
    rewrite !ret_unfold, <- app_assoc. reflexivity.
Qed.

Lemma append_String c (s1 s2 : string) :
  (String c s1 ++ s2)%string = String c (s1 ++ s2)%string.
Proof. reflexivity. Qed.

Lemma has_char_snoc c cur c' :
  has_char c (snoc cur c') = has_char c cur || Ascii.eqb c' c.
Proof.
  unfold snoc. induction cur as [|x cur IH].
  - apply orb_false_r.
  - rewrite append_String. cbn [has_char]. rewrite IH. apply orb_assoc.
Qed.

Lemma split_from_parts sep s :
  forall cur,
    has_char sep cur = false ->
    Forall (fun part => has_char sep part = false) (split_from sep cur s).
Proof.
  induction s as [|c rest IH]; intros cur Hcur; cbn [split_from].
  - apply Forall_cons. split; [exact Hcur|apply Forall_nil_2].
  - destruct (Ascii.eqb c sep) eqn:Hc.
    + apply Forall_cons. split; [exact Hcur|]. apply IH. reflexivity.
    + apply IH. rewrite has_char_snoc, Hcur, Hc. reflexivity.
Qed.

Lemma split_from_cons sep s :
  forall cur, exists part parts, split_from sep cur s = part :: parts.
Proof.
  induction s as [|c rest IH]; intros cur; cbn [split_from].
  - eauto.
  - destruct (Ascii.eqb c sep); eauto.
Qed.

Lemma snoc_append cur c s : (snoc cur c ++ s = cur ++ String c s)%string.
Proof.
  unfold snoc. induction cur as [|x cur IH]; [reflexivity|].
  rewrite !append_String, IH. reflexivity.
Qed.

Lemma append_empty (s : string) : (s ++ EmptyString)%string = s.
Proof.
  induction s as [|c s IH]; [reflexivity|]. rewrite append_String, IH. reflexivity.
Qed.

Lemma join_split_from sep s :
  forall cur,
    join (String sep EmptyString) (split_from sep cur s) = (cur ++ s)%string.
Proof.
  induction s as [|c rest IH]; intros cur; cbn [split_from].
  - simpl. symmetry. apply append_empty.
  - destruct (Ascii.eqb c sep) eqn:Hc.
    + apply Ascii.eqb_eq in Hc. subst c.
      destruct (split_from_cons sep rest EmptyString) as [part [parts Hparts]].
      cbn [join]. rewrite Hparts, <- Hparts, IH. reflexivity.
    + rewrite IH. apply snoc_append.
Qed.

(** C5 (as amended). [_run_lines] cuts the text into lines and each
    line at its space characters, the only separator: a token is a
    non-empty stretch without a space between two cuts (a tab stays
    inside its token), and joining the parts of a line with spaces
    gives the line back.  It calls the callback on each token, in
    order, and joins what the callback returns with one space inside a
    line and with the line separator between lines.  So two lines of
    two and one tokens keep this shape, and the tokens around two
    spaces come out with one space between them. *)
Theorem C5_run_lines_cuts_at_spaces :
  (forall self text (callback : callable_fn) w,
     AbstractPlugin._run_lines self text callback w
     = Described.run_lines_with Described.space_tokens text callback w) /\
  (forall line,
     join " " (split " " line) = line /\
     Forall (fun token => token <> EmptyString /\ has_char " " token = false)
       (Described.space_tokens line)) /\
  (forall self (f : string -> string) w,
     AbstractPlugin._run_lines self ("AB CD" ++ String "010" "EF")
       (Described.pure_callback f) w
     = (Ret ((f "AB" ++ " " ++ f "CD") ++ linesep ++ f "EF")%string, w)) /\
  (forall self (f : string -> string) w,
     AbstractPlugin._run_lines self "A  B" (Described.pure_callback f) w
     = (Ret (f "A" ++ " " ++ f "B")%string, w)).
Proof.
  split; [|split; [|split]].
  - intros self text callback w.
    unfold AbstractPlugin._run_lines, Described.run_lines_with.
    rewrite !bind_unfold, lines_loop, bind_unfold.
    destruct (Described.map_m _ (splitlines text) w) as [[ls|e] w1]; reflexivity.
  - intros line. split; [apply (join_split_from " " line EmptyString)|].
    unfold Described.space_tokens. apply Forall_forall. intros token Hin.
    apply list_elem_of_filter in Hin. destruct Hin as [Htruth Hin]. split.
    + intros ->. discriminate Htruth.
    + pose proof (split_from_parts " " line EmptyString eq_refl) as Hparts.
      rewrite Forall_forall in Hparts. apply Hparts, Hin.
  - reflexivity.
  - reflexivity.
Qed.

(** * Further properties of the code *)

(** ** Setting up a builder *)

Lemma get_None s b :
  Command.Builder.builders s !! b = None ->
  Command.Builder.get b s
  = (Raise (OtherException "ReferenceError" "no such builder"), s).
Proof. unfold Command.Builder.get. intros ->. reflexivity. Qed.

Lemma call_setter_Some s b o st :
  Command.Builder.builders s !! b = Some o ->
  Usage.call_setter b st s
  = (Ret b,
     Command.Builder.State (<[b := Usage.assigned o st]> (Command.Builder.builders s))
       (Command.Builder.world s)).
Proof.
  intros Hb.
  destruct st; cbn [Usage.call_setter Usage.assigned];
    unfold Command.Builder.name, Command.Builder.type, Command.Builder.author,
      Command.Builder.title, Command.Builder.run, Command.Builder.select,
      Command.Builder.set_name, Command.Builder.set_type, Command.Builder.set_author,
      Command.Builder.set_title_method, Command.Builder.set_run_method,
      Command.Builder.set_select_method;
    rewrite !bind_unfold, (get_Some _ _ _ Hb); reflexivity.
Qed.

Lemma call_setter_None s b st :
  Command.Builder.builders s !! b = None ->
  Usage.call_setter b st s
  = (Raise (OtherException "ReferenceError" "no such builder"), s).
Proof.
  intros Hb.
  destruct st; cbn [Usage.call_setter];
    unfold Command.Builder.name, Command.Builder.type, Command.Builder.author,
      Command.Builder.title, Command.Builder.run, Command.Builder.select,
      Command.Builder.set_name, Command.Builder.set_type, Command.Builder.set_author,
      Command.Builder.set_title_method, Command.Builder.set_run_method,
      Command.Builder.set_select_method;
    rewrite !bind_unfold, (get_None _ _ Hb); reflexivity.
Qed.

Lemma chain_Some l :
  forall s b o,
    Command.Builder.builders s !! b = Some o ->
    Usage.chain b l s
    = (Ret b,
       Command.Builder.State
         (<[b := fold_left Usage.assigned l o]> (Command.Builder.builders s))
         (Command.Builder.world s)).
Proof.
  induction l as [|st l IH]; intros s b o Hb.
  - cbn [Usage.chain fold_left]. rewrite ret_unfold, (insert_id _ _ _ Hb).
    destruct s; reflexivity.
  - cbn [Usage.chain fold_left]. rewrite bind_unfold, (call_setter_Some _ _ _ _ Hb).
    rewrite (IH _ b (Usage.assigned o st)).
    + cbn [Command.Builder.builders Command.Builder.world].
      rewrite insert_insert_eq. reflexivity.
    + apply lookup_insert_eq.
Qed.

Lemma chain_None l st s b :
  Command.Builder.builders s !! b = None ->
  Usage.chain b (st :: l) s
  = (Raise (OtherException "ReferenceError" "no such builder"), s).
Proof.
  intros Hb. cbn [Usage.chain]. rewrite bind_unfold, (call_setter_None _ _ _ Hb).
  reflexivity.
Qed.

Lemma assigned_commute o st1 st2 :
  Usage.attribute_of st1 <> Usage.attribute_of st2 ->
  Usage.assigned (Usage.assigned o st1) st2 = Usage.assigned (Usage.assigned o st2) st1.
Proof.
  destruct st1, st2; cbn [Usage.attribute_of]; intros Hne;
    try reflexivity; contradiction Hne; reflexivity.
Qed.

Lemma assigned_last o st1 st2 :
  Usage.attribute_of st1 = Usage.attribute_of st2 ->
  Usage.assigned (Usage.assigned o st1) st2 = Usage.assigned o st2.
Proof.
  destruct st1, st2; cbn [Usage.attribute_of]; intros Heq;
    try reflexivity; discriminate Heq.
Qed.

(** X1. A chain of setter calls on a builder returns that builder and
    changes nothing but its attributes, one per call, leaving the world
    and the other builders alone; two calls that set different
    attributes can be swapped, and of two calls that set the same
    attribute the second one counts. *)
Theorem X1_setter_calls_compose :
  (forall s b o l,
     Command.Builder.builders s !! b = Some o ->
     Usage.chain b l s
     = (Ret b,
        Command.Builder.State
          (<[b := fold_left Usage.assigned l o]> (Command.Builder.builders s))
          (Command.Builder.world s))) /\
  (forall s b st1 st2,
     Usage.attribute_of st1 <> Usage.attribute_of st2 ->
     Usage.chain b [st1; st2] s = Usage.chain b [st2; st1] s) /\
  (forall s b st1 st2,
     Usage.attribute_of st1 = Usage.attribute_of st2 ->
     Usage.chain b [st1; st2] s = Usage.chain b [st2] s).
Proof.
  split; [|split].
  - intros s b o l Hb. apply chain_Some, Hb.
  - intros s b st1 st2 Hne.
    destruct (Command.Builder.builders s !! b) as [o|] eqn:Hb.
    + rewrite !(chain_Some _ _ _ _ Hb). cbn [fold_left].
      rewrite (assigned_commute _ _ _ Hne). reflexivity.
    + rewrite !(chain_None _ _ _ _ Hb). reflexivity.
  - intros s b st1 st2 Heq.
    destruct (Command.Builder.builders s !! b) as [o|] eqn:Hb.
    + rewrite !(chain_Some _ _ _ _ Hb). cbn [fold_left].
      rewrite (assigned_last _ _ _ Heq). reflexivity.
    + rewrite !(chain_None _ _ _ _ Hb). reflexivity.
Qed.

(** X2. [Command.Builder()] gives a builder that was not there before,
    with no attribute set, and leaves the world and the builders that
    were there as they are; building it at once fails. *)
Theorem X2_new_builder_is_fresh_and_unset :
  forall s,
  exists b s',
    Command.Builder.new s = (Ret b, s') /\
    Command.Builder.builders s !! b = None /\
    Command.Builder.builders s' !! b
    = Some (Command.Builder.init None None None None None None) /\
    (forall b', b' <> b ->
       Command.Builder.builders s' !! b' = Command.Builder.builders s !! b') /\
    Command.Builder.world s' = Command.Builder.world s /\
    exists msg, Command.Builder.build b s' = (Raise (AssertionError msg), s').
Proof.
  intros s. do 2 eexists. split; [apply new_fresh|].
  cbn [Command.Builder.builders Command.Builder.world].
  split; [apply not_elem_of_dom, is_fresh|].
  split; [apply lookup_insert_eq|].
  split; [intros b' Hne; apply lookup_insert_ne; congruence|].
  split; [reflexivity|].
  eexists. unfold Command.Builder.build at 1.
  rewrite bind_unfold, get_insert. builder_attrs.
  rewrite bind_assert_false. reflexivity.
Qed.

(** ** What [build] returns *)

(** [build] returns only when the three required attributes are set. *)
Lemma build_Ret_inv s b c s' :
  Command.Builder.build b s = (Ret c, s') ->
  exists o n t r,
    Command.Builder.builders s !! b = Some o /\
    Command.Builder._name o = Some n /\ n <> EmptyString /\
    Command.Builder._type o = Some t /\
    Command.Builder._run_method o = Some r.
Proof.
  unfold Command.Builder.build.
  destruct (Command.Builder.builders s !! b) as [o|] eqn:Hb;
    [|rewrite bind_unfold, (get_None _ _ Hb); discriminate].
  rewrite (bind_Ret _ _ _ _ _ (get_Some _ _ _ Hb)).
  destruct (Command.Builder._name o) as [[|ch n]|] eqn:Hn;
    try (rewrite bind_assert_false; discriminate).
  change (len_pos (String ch n)) with true. rewrite bind_assert_true.
  destruct (Command.Builder._type o) as [t|] eqn:Ht;
    [rewrite is_Some_true, bind_assert_true
    |rewrite is_Some_false, bind_assert_false; discriminate].
  destruct (Command.Builder._run_method o) as [r|] eqn:Hr;
    [|rewrite is_Some_false, bind_assert_false; discriminate].
  intros _. exists o, (String ch n), t, r. repeat split; try assumption. discriminate.
Qed.

(** X3. Building again from a builder that has been built returns the
    same command and changes nothing; a successful [build] leaves the
    world and every other builder as they were. *)
Theorem X3_build_again_returns_the_same_command :
  forall s b c s',
    Command.Builder.build b s = (Ret c, s') ->
    Command.Builder.build b s' = (Ret c, s') /\
    Command.Builder.world s' = Command.Builder.world s /\
    (forall b', b' <> b ->
       Command.Builder.builders s' !! b' = Command.Builder.builders s !! b').
Proof.
  intros s b c s' Hbuild.
  destruct (build_Ret_inv _ _ _ _ Hbuild) as [o [n [t [r [Hb [Hn [Hne [Ht Hr]]]]]]]].
  pose proof (build_returns s b o n t r Hb Hn Hne Ht Hr) as Hret. cbv zeta in Hret.
  rewrite Hret in Hbuild. injection Hbuild as <- <-.
  split; [|split].
  - erewrite build_returns;
      [|cbn [Command.Builder.builders]; apply lookup_insert_eq
       |reflexivity|exact Hne|reflexivity|reflexivity].
    builder_attrs. cbn [default Command.Builder.builders Command.Builder.world].
    rewrite insert_insert_eq. reflexivity.
  - reflexivity.
  - intros b' Hb'. cbn [Command.Builder.builders]. apply lookup_insert_ne. congruence.
Qed.

(** X4. Every command that [build] returns has a non-empty name, a
    type and all three hooks, the run hook being the builder's, and the
    builder is left holding these very values; so a built command is
    never equal to the [NullCommand]. *)
Theorem X4_built_commands_are_complete :
  forall s b c s',
    Command.Builder.build b s = (Ret c, s') ->
    exists n t r sel ti,
      n <> EmptyString /\
      c = Command.init (Some n) (Some t) (Command.author c)
            (Some ti) (Some (Command.Fn r)) (Some sel) Command.Command_ /\
      Command.Builder.builders s' !! b
      = Some (Command.Builder.init (Some n) (Some t) (Command.author c)
                (Some r) (Some sel) (Some ti)) /\
      Command.eq c NullCommand.new = false.
Proof.
  intros s b c s' Hbuild.
  destruct (build_Ret_inv _ _ _ _ Hbuild) as [o [n [t [r [Hb [Hn [Hne [Ht Hr]]]]]]]].
  pose proof (build_returns s b o n t r Hb Hn Hne Ht Hr) as Hret. cbv zeta in Hret.
  rewrite Hret in Hbuild. injection Hbuild as <- <-.
  do 5 eexists. split; [exact Hne|]. split; [reflexivity|].
  split; [cbn [Command.Builder.builders]; apply lookup_insert_eq|].
  destruct n as [|ch n]; [contradiction Hne; reflexivity|reflexivity].
Qed.

(** X5. The hooks given to the builder are the hooks of the command:
    [run] returns what the run hook returns on the positional
    arguments, and so does [select] for a select hook that was given,
    its result not being dropped; [title] returns what a given title
    hook returns when called without arguments. *)
Theorem X5_given_hooks_are_called :
  forall s b o c s',
    Command.Builder.builders s !! b = Some o ->
    Command.Builder.build b s = (Ret c, s') ->
    (forall r a k,
       Command.Builder._run_method o = Some r ->
       Command.run c a k s' = Command.Builder.lift (r a []) s') /\
    (forall f a k,
       Command.Builder._select_method o = Some (Command.Fn f) ->
       Command.select c a k s' = Command.Builder.lift (f a []) s') /\
    (forall g,
       Command.Builder._title_method o = Some (Command.Fn g) ->
       Command.title c s' = Command.Builder.lift (g [] []) s').
Proof.
  intros s b o c s' Hb Hbuild.
  destruct (build_Ret_inv _ _ _ _ Hbuild) as [o' [n [t [r [Hb' [Hn [Hne [Ht Hr]]]]]]]].
  rewrite Hb in Hb'. injection Hb' as <-.
  pose proof (build_returns s b o n t r Hb Hn Hne Ht Hr) as Hret. cbv zeta in Hret.
  rewrite Hret in Hbuild. injection Hbuild as <- <-.
  split; [|split].
  - intros r' a k Hr'. rewrite Hr in Hr'. injection Hr' as <-. reflexivity.
  - intros f a k Hsel. rewrite Hsel. reflexivity.
  - intros g Hti. rewrite Hti. reflexivity.
Qed.

(** X6. On a command built without a select hook, in every state in
    which the builder holds the run hook it was built with, as it does
    in the state [build] leaves, [select] does to the world what [run]
    does and raises what [run] raises; it differs in the result only,
    which is [None] whatever [run] returns. *)
Theorem X6_default_select_acts_as_run :
  forall s b o c s',
    Command.Builder.builders s !! b = Some o ->
    Command.Builder._select_method o = None ->
    Command.Builder.build b s = (Ret c, s') ->
    (exists o',
       Command.Builder.builders s' !! b = Some o' /\
       Command.Builder._run_method o' = Command.Builder._run_method o) /\
    (forall s2 o2 a k,
       Command.Builder.builders s2 !! b = Some o2 ->
       Command.Builder._run_method o2 = Command.Builder._run_method o ->
       snd (Command.select c a k s2) = snd (Command.run c a k s2) /\
       fst (Command.select c a k s2)
       = match fst (Command.run c a k s2) with
         | Ret _ => Ret VNone
         | Raise e => Raise e
         end).
Proof.
  intros s b o c s' Hb Hsel Hbuild.
  destruct (build_Ret_inv _ _ _ _ Hbuild) as [o' [n [t [r [Hb' [Hn [Hne [Ht Hr]]]]]]]].
  rewrite Hb in Hb'. injection Hb' as <-.
  pose proof (build_returns s b o n t r Hb Hn Hne Ht Hr) as Hret. cbv zeta in Hret.
  rewrite Hret in Hbuild. injection Hbuild as <- <-.
  split.
  - eexists. split; [cbn [Command.Builder.builders]; apply lookup_insert_eq|].
    builder_attrs. symmetry. exact Hr.
  - intros s2 o2 a k Hb2 Hr2. rewrite Hr in Hr2.
    rewrite Hsel. unfold Command.select, Command.run, Command.call, default.
    cbn [Command._select_method Command._run_method].
    rewrite (bind_Ret _ _ _ _ _ (get_Some _ _ _ Hb2)), Hr2.
    rewrite bind_unfold. unfold Command.Builder.lift.
    destruct (r a [] (Command.Builder.world s2)) as [[v|e] w]; split; reflexivity.
Qed.

(** X7. The default select hook reads the builder's run hook when it
    is called: after the builder is given another run hook, [select]
    of the command built before calls the new hook while [run] calls
    the old one, and after the builder's run hook is taken away
    [select] raises [TypeError]. *)
Theorem X7_default_select_follows_the_builder :
  forall s b o n t r r',
    Command.Builder.builders s !! b = Some o ->
    Command.Builder._name o = Some n -> n <> EmptyString ->
    Command.Builder._type o = Some t ->
    Command.Builder._run_method o = Some r ->
    Command.Builder._select_method o = None ->
    exists c s1 s2 s3,
      Command.Builder.build b s = (Ret c, s1) /\
      Command.Builder.run b (Some r') s1 = (Ret b, s2) /\
      Command.Builder.run b None s1 = (Ret b, s3) /\
      forall a k,
        Command.run c a k s2 = Command.Builder.lift (r a []) s2 /\
        Command.select c a k s2 = (Command.Builder.lift (r' a []) ;;; ret VNone) s2 /\
        Command.select c a k s3
        = (Raise (TypeError "'NoneType' object is not callable"), s3).
Proof.
  intros s b o n t r r' Hb Hn Hne Ht Hr Hsel.
  do 4 eexists. split; [apply (build_returns s b o n t r); assumption|].
  split; [apply run_insert|]. split; [apply run_insert|].
  intros a k. rewrite Hsel. unfold Command.select, Command.call, default.
  cbn [Command._select_method]. builder_attrs.
  split; [reflexivity|].
  rewrite !(bind_Ret _ _ _ _ _ (get_insert _ _ _ _)). builder_attrs.
  split; reflexivity.
Qed.

(** ** Equality *)

(** X8. [==] on commands, and on plugins, is reflexive, symmetric and
    transitive, and objects that are equal have the same hash, as sets
    and dictionaries need it. *)
Theorem X8_equality_is_an_equivalence_that_hash_respects :
  ((forall x : Command.t, Command.eq x x = true) /\
   (forall x y : Command.t, Command.eq x y = Command.eq y x) /\
   (forall x y z : Command.t,
      Command.eq x y = true -> Command.eq y z = true -> Command.eq x z = true) /\
   (forall x y : Command.t, Command.eq x y = true -> Command.hash_ x = Command.hash_ y)) /\
  ((forall x : AbstractPlugin.t, AbstractPlugin.eq x x = true) /\
   (forall x y : AbstractPlugin.t, AbstractPlugin.eq x y = AbstractPlugin.eq y x) /\
   (forall x y z : AbstractPlugin.t,
      AbstractPlugin.eq x y = true -> AbstractPlugin.eq y z = true ->
      AbstractPlugin.eq x z = true) /\
   (forall x y : AbstractPlugin.t,
      AbstractPlugin.eq x y = true -> AbstractPlugin.hash_ x = AbstractPlugin.hash_ y)).
Proof.
  assert (Hsym : forall k1 k2, key_eq k1 k2 = key_eq k2 k1).
  { intros k1 k2. destruct (key_eq k1 k2) eqn:H12, (key_eq k2 k1) eqn:H21; try reflexivity.
    - apply key_eq_true in H12. subst k2.
      rewrite (proj2 (key_eq_true k1 k1) eq_refl) in H21. discriminate H21.
    - apply key_eq_true in H21. subst k2.
      rewrite (proj2 (key_eq_true k1 k1) eq_refl) in H12. discriminate H12. }
  split; (split; [|split; [|split]]).
  - intros x. apply key_eq_true. reflexivity.
  - intros x y. apply Hsym.
  - unfold Command.eq. intros x y z Hxy Hyz. apply key_eq_true in Hxy, Hyz.
    apply key_eq_true. congruence.
  - unfold Command.eq, Command.hash_. intros x y Hxy. apply key_eq_true in Hxy.
    rewrite Hxy. reflexivity.
  - intros x. apply key_eq_true. reflexivity.
  - intros x y. apply Hsym.
  - unfold AbstractPlugin.eq. intros x y z Hxy Hyz. apply key_eq_true in Hxy, Hyz.
    apply key_eq_true. congruence.
  - unfold AbstractPlugin.eq, AbstractPlugin.hash_. intros x y Hxy.
    apply key_eq_true in Hxy. rewrite Hxy. reflexivity.
Qed.

(** ** Constructing plugins *)

Lemma init_Ret_inv {S} cls name type author deps (s s' : S) p :
  AbstractPlugin.init cls name type author deps s = (Ret p, s') ->
  (exists n, name = Some n /\ n <> EmptyString) /\
  (exists a, author = Some a /\ a <> EmptyString) /\
  (exists t, type = Some t /\
             t ∈ [Command.Type_.DECODER; Command.Type_.ENCODER;
                  Command.Type_.HASHER; Command.Type_.SCRIPT]) /\
  p = AbstractPlugin.Object name type author deps cls /\ s' = s.
Proof.
  unfold AbstractPlugin.init.
  destruct name as [[|c n]|]; try (rewrite bind_assert_false; discriminate).
  change (len_pos (String c n)) with true. rewrite bind_assert_true.
  destruct (str_in type _) eqn:Hty;
    [rewrite bind_assert_true|rewrite bind_assert_false; discriminate].
  destruct author as [[|c' a]|]; try (rewrite bind_assert_false; discriminate).
  change (len_pos (String c' a)) with true. rewrite bind_assert_true.
  intros [= <- <-].
  apply str_in_true in Hty. destruct Hty as [t [Hin ->]].
  split; [exists (String c n); split; [reflexivity|discriminate]|].
  split; [exists (String c' a); split; [reflexivity|discriminate]|].
  split; [exists t; split; [reflexivity|exact Hin]|].
  split; reflexivity.
Qed.

Lemma init_Ret_intro {S} cls n t a deps (s : S) :
  n <> EmptyString -> a <> EmptyString ->
  t ∈ [Command.Type_.DECODER; Command.Type_.ENCODER;
       Command.Type_.HASHER; Command.Type_.SCRIPT] ->
  AbstractPlugin.init cls (Some n) (Some t) (Some a) deps s
  = (Ret (AbstractPlugin.Object (Some n) (Some t) (Some a) deps cls), s).
Proof.
  intros Hn Ha Ht. unfold AbstractPlugin.init.
  rewrite (proj2 (len_pos_true n) Hn), bind_assert_true.
  rewrite (proj2 (str_in_true (Some t) _)) by (exists t; split; [exact Ht|reflexivity]).
  rewrite bind_assert_true, (proj2 (len_pos_true a) Ha), bind_assert_true.
  reflexivity.
Qed.

(** X9. The constructor of [AbstractPlugin] returns exactly when the
    name and the author are non-empty strings and the type is one of
    the four type names; the plugin then holds the arguments as they
    were given, the dependencies unchecked, and nothing else has
    changed. *)
Theorem X9_plugin_constructor_returns_exactly_on_valid_arguments :
  forall S cls name type author deps (s s' : S) p,
    AbstractPlugin.init cls name type author deps s = (Ret p, s') <->
    (exists n, name = Some n /\ n <> EmptyString) /\
    (exists a, author = Some a /\ a <> EmptyString) /\
    (exists t, type = Some t /\
               t ∈ [Command.Type_.DECODER; Command.Type_.ENCODER;
                    Command.Type_.HASHER; Command.Type_.SCRIPT]) /\
    p = AbstractPlugin.Object name type author deps cls /\ s' = s.
Proof.
  intros S cls name type author deps s s' p. split; [apply init_Ret_inv|].
  intros [[n [-> Hn]] [[a [-> Ha]] [[t [-> Ht]] [-> ->]]]].
  apply init_Ret_intro; assumption.
Qed.

Lemma construct_init {S} c cls name author deps (s : S) :
  Usage.construct c cls name author deps s
  = AbstractPlugin.init cls name (Some (Usage.type_of c)) author deps s.
Proof. destruct c; reflexivity. Qed.

Lemma type_of_inj c1 c2 : Usage.type_of c1 = Usage.type_of c2 -> c1 = c2.
Proof. destruct c1, c2; intros Heq; try reflexivity; discriminate Heq. Qed.

Lemma type_of_known c :
  Usage.type_of c ∈ [Command.Type_.DECODER; Command.Type_.ENCODER;
                     Command.Type_.HASHER; Command.Type_.SCRIPT].
Proof. destruct c; cbn [Usage.type_of]; set_solver. Qed.

(** X10. Each of the four typed constructors fixes the type of the
    plugin it makes to its own type name, and returns for every
    non-empty name and author; two plugins made by typed constructors
    are equal exactly when they come from the same constructor with the
    same name, whatever their authors, dependencies and classes. *)
Theorem X10_typed_constructors_fix_the_type :
  (forall S c cls name author deps (s s' : S) p,
     Usage.construct c cls name author deps s = (Ret p, s') ->
     AbstractPlugin.type p = Some (Usage.type_of c) /\
     AbstractPlugin.name p = name /\ AbstractPlugin.author p = author) /\
  (forall S c cls n a deps (s : S),
     n <> EmptyString -> a <> EmptyString ->
     Usage.construct c cls (Some n) (Some a) deps s
     = (Ret (AbstractPlugin.Object (Some n) (Some (Usage.type_of c)) (Some a) deps cls), s)) /\
  (forall S c1 c2 cls1 cls2 name1 name2 author1 author2 deps1 deps2
          (s1 s1' s2 s2' : S) p1 p2,
     Usage.construct c1 cls1 name1 author1 deps1 s1 = (Ret p1, s1') ->
     Usage.construct c2 cls2 name2 author2 deps2 s2 = (Ret p2, s2') ->
     (AbstractPlugin.eq p1 p2 = true <-> c1 = c2 /\ name1 = name2)).
Proof.
  split; [|split].
  - intros S c cls name author deps s s' p. rewrite construct_init. intros Hinit.
    apply init_Ret_inv in Hinit. destruct Hinit as [_ [_ [_ [-> _]]]].
    repeat split.
  - intros S c cls n a deps s Hn Ha. rewrite construct_init.
    apply init_Ret_intro; [assumption..|apply type_of_known].
  - intros S c1 c2 cls1 cls2 name1 name2 author1 author2 deps1 deps2 s1 s1' s2 s2' p1 p2.
    rewrite !construct_init. intros H1 H2.
    apply init_Ret_inv in H1, H2.
    destruct H1 as [_ [_ [_ [-> _]]]]. destruct H2 as [_ [_ [_ [-> _]]]].
    rewrite plugin_eq_true. cbn [AbstractPlugin.name AbstractPlugin.type
                                  AbstractPlugin._name AbstractPlugin._type].
    split.
    + intros [Hn [= Ht]]. split; [apply type_of_inj, Ht|exact Hn].
    + intros [-> ->]. split; reflexivity.
Qed.

(** ** More on dependencies *)

Lemma for_each_app {S A B} (body : B -> A -> M S B) l1 :
  forall l2 acc s,
    for_each (l1 ++ l2) acc body s
    = bind (for_each l1 acc body) (fun acc' => for_each l2 acc' body) s.
Proof.
  induction l1 as [|x l1 IH]; intros l2 acc s.
  - reflexivity.
  - cbn [app for_each]. rewrite !bind_unfold.
    destruct (body acc x s) as [[acc'|e] s']; [apply IH|reflexivity].
Qed.

Lemma check_loop_Ret_inv names :
  forall acc w l w',
    for_each names acc
      (fun unresolved name =>
         try_except_Exception
           (import_module name ;;; ret unresolved)
           (fun _ => ret (unresolved ++ [name]))) w
    = (Ret l, w') ->
    Forall (fun a => Described.escapes (snd a) = false) (fst (Described.imports names w)).
Proof.
  induction names as [|name names IH]; intros acc w l w'.
  - intros _. apply Forall_nil_2.
  - rewrite imports_cons. cbn [for_each fst]. rewrite bind_unfold, try_import.
    destruct (import_module name w) as [[[]|e] w0]; cbn [fst snd].
    + intros Hrest. apply Forall_cons. split; [reflexivity|]. apply (IH _ _ _ _ Hrest).
    + destruct (is_Exception e) eqn:He; [|discriminate].
      intros Hrest. apply Forall_cons. split; [simpl; rewrite He; reflexivity|].
      apply (IH _ _ _ _ Hrest).
Qed.

Lemma elem_of_unresolved x attempts :
  x ∈ Described.unresolved attempts <->
  exists r, (x, r) ∈ attempts /\ Described.failed r = true.
Proof.
  unfold Described.unresolved. rewrite list_elem_of_fmap. split.
  - intros [[y r] [-> Hin]]. apply list_elem_of_filter in Hin. destruct Hin as [Hf Hin].
    exists r. split; assumption.
  - intros [r [Hin Hf]]. exists (x, r). split; [reflexivity|].
    apply list_elem_of_filter. split; assumption.
Qed.

(** X11. [check_dependencies] stops at the first import that raises
    something other than an [Exception]: it raises that, in the world
    this import has left, and the dependencies declared after it are
    not imported. *)
Theorem X11_check_dependencies_stops_at_the_first_escaping_import :
  forall (self : AbstractPlugin.t) (w w' : World) before name after e,
    AbstractPlugin._dependencies self = Some (before ++ name :: after) ->
    Forall (fun a => Described.escapes (snd a) = false)
      (fst (Described.imports before w)) ->
    import_module name (snd (Described.imports before w)) = (Raise e, w') ->
    is_Exception e = false ->
    AbstractPlugin.check_dependencies self w = (Raise e, w').
Proof.
  intros self w w' before name after e Hdeps Hbefore Himport He.
  unfold AbstractPlugin.check_dependencies. rewrite Hdeps.
  replace (opt_list_truth (Some (before ++ name :: after))) with true
    by (destruct before; reflexivity).
  cbn [default id]. rewrite for_each_app, bind_unfold, (check_loop_returns _ _ _ Hbefore).
  cbn [for_each]. rewrite bind_unfold, try_import, Himport, He. reflexivity.
Qed.

(** X12. [check_dependencies] returns a list exactly when no import
    raises something other than an [Exception]; the list is then no
    longer than the declared one, and a name is in it exactly when an
    import of that name has raised. *)
Theorem X12_check_dependencies_returns_unless_an_import_escapes :
  forall (self : AbstractPlugin.t) (w : World),
    let names := default [] (AbstractPlugin._dependencies self) in
    let attempts := fst (Described.imports names w) in
    ((exists l w', AbstractPlugin.check_dependencies self w = (Ret l, w')) <->
     Forall (fun a => Described.escapes (snd a) = false) attempts) /\
    (forall l w',
       AbstractPlugin.check_dependencies self w = (Ret l, w') ->
       length l <= length names /\
       (forall x, x ∈ l -> x ∈ names) /\
       (forall x, x ∈ l <-> exists r, (x, r) ∈ attempts /\ Described.failed r = true)).
Proof.
  intros self w names attempts. subst names attempts.
  assert (Hret : Forall (fun a => Described.escapes (snd a) = false)
                   (fst (Described.imports (default [] (AbstractPlugin._dependencies self)) w)) ->
                 AbstractPlugin.check_dependencies self w
                 = (Ret (Described.unresolved
                           (fst (Described.imports
                                   (default [] (AbstractPlugin._dependencies self)) w))),
                    snd (Described.imports (default [] (AbstractPlugin._dependencies self)) w))).
  { intros Hall. unfold AbstractPlugin.check_dependencies.
    destruct (AbstractPlugin._dependencies self) as [[|name names]|]; try reflexivity.
    cbn [opt_list_truth default] in *.
    apply (check_loop_returns (name :: names) [] w Hall). }
  assert (Hinv : forall l w',
             AbstractPlugin.check_dependencies self w = (Ret l, w') ->
             Forall (fun a => Described.escapes (snd a) = false)
               (fst (Described.imports (default [] (AbstractPlugin._dependencies self)) w))).
  { intros l w'. unfold AbstractPlugin.check_dependencies.
    destruct (AbstractPlugin._dependencies self) as [[|name names]|];
      cbn [opt_list_truth default]; try (intros _; apply Forall_nil_2).
    apply check_loop_Ret_inv. }
  split.
  - split; [intros [l [w' Hcheck]]; apply (Hinv _ _ Hcheck)|].
    intros Hall. do 2 eexists. apply Hret, Hall.
  - intros l w' Hcheck. pose proof (Hinv _ _ Hcheck) as Hall.
    rewrite (Hret Hall) in Hcheck. injection Hcheck as <- _.
    split; [apply sublist_length, unresolved_sublist|].
    split; [apply sublist_subseteq, unresolved_sublist|].
    intros x. apply elem_of_unresolved.
Qed.

(** ** More on lines and tokens *)

Lemma run_lines_refines self text (callback : callable_fn) w :
  AbstractPlugin._run_lines self text callback w
  = Described.run_lines_with Described.space_tokens text callback w.
Proof.
  unfold AbstractPlugin._run_lines, Described.run_lines_with.
  rewrite !bind_unfold, lines_loop, bind_unfold.
  destruct (Described.map_m _ (splitlines text) w) as [[ls|e] w1]; reflexivity.
Qed.

Lemma all_chars_snoc p cur c :
  Usage.all_chars p (snoc cur c) = Usage.all_chars p cur && p c.
Proof.
  unfold snoc. induction cur as [|x cur IH].
  - change (Usage.all_chars p (String c EmptyString) = true && p c).
    cbn [Usage.all_chars]. destruct (p c); reflexivity.
  - rewrite append_String. cbn [Usage.all_chars]. rewrite IH. apply andb_assoc.
Qed.

Lemma splitlines_from_cr cur rest :
  splitlines_from cur (String "013" rest)
  = default EmptyString cur :: splitlines_from None (Usage.after_cr rest).
Proof.
  destruct rest as [|c rest]; [reflexivity|].
  destruct c as [[] [] [] [] [] [] [] []]; reflexivity.
Qed.

Lemma splitlines_from_String cur c rest :
  splitlines_from cur (String c rest)
  = if Ascii.eqb c "013" then
      default EmptyString cur :: splitlines_from None (Usage.after_cr rest)
    else if is_linebreak c then default EmptyString cur :: splitlines_from None rest
    else splitlines_from (Some (snoc (default EmptyString cur) c)) rest.
Proof.
  destruct (Ascii.eqb c "013") eqn:Hc.
  - apply Ascii.eqb_eq in Hc. subst c. apply splitlines_from_cr.
  - cbn [splitlines_from]. rewrite Hc. reflexivity.
Qed.

Lemma after_cr_length rest : String.length (Usage.after_cr rest) <= String.length rest.
Proof.
  destruct rest as [|c rest]; [reflexivity|]. cbn [Usage.after_cr].
  destruct (Ascii.eqb c "010"); cbn [String.length]; lia.
Qed.

Lemma after_cr_chars p rest :
  Usage.all_chars p rest = true -> Usage.all_chars p (Usage.after_cr rest) = true.
Proof.
  destruct rest as [|c rest]; [intros _; reflexivity|]. cbn [Usage.after_cr].
  destruct (Ascii.eqb c "010"); [|intros Hp; exact Hp].
  cbn [Usage.all_chars]. intros Hp. apply andb_true_iff in Hp. apply Hp.
Qed.

(** The lines of a text are made of characters of the text, and have
    no line boundary in them. *)
Lemma splitlines_from_chars p n :
  forall s cur,
    String.length s <= n ->
    Usage.all_chars p s = true ->
    (forall l, cur = Some l ->
       Usage.all_chars p l = true /\ Usage.all_chars Usage.not_linebreak l = true) ->
    Forall (fun l => Usage.all_chars p l = true /\
                     Usage.all_chars Usage.not_linebreak l = true)
      (splitlines_from cur s).
Proof.
  induction n as [|n IH]; intros s cur Hlen Hp Hcur.
  - destruct s as [|c s]; [|cbn [String.length] in Hlen; lia].
    destruct cur as [l|]; cbn [splitlines_from]; [|apply Forall_nil_2].
    apply Forall_cons. split; [apply Hcur; reflexivity|apply Forall_nil_2].
  - destruct s as [|c rest].
    + destruct cur as [l|]; cbn [splitlines_from]; [|apply Forall_nil_2].
      apply Forall_cons. split; [apply Hcur; reflexivity|apply Forall_nil_2].
    + cbn [String.length] in Hlen. cbn [Usage.all_chars] in Hp.
      apply andb_true_iff in Hp. destruct Hp as [Hc Hrest].
      assert (Hl : Usage.all_chars p (default EmptyString cur) = true /\
                   Usage.all_chars Usage.not_linebreak (default EmptyString cur) = true).
      { destruct cur as [l|]; [apply Hcur; reflexivity|split; reflexivity]. }
      rewrite splitlines_from_String.
      destruct (Ascii.eqb c "013").
      * apply Forall_cons. split; [exact Hl|].
        apply IH; [pose proof (after_cr_length rest); lia
                  |apply after_cr_chars, Hrest|discriminate].
      * destruct (is_linebreak c) eqn:Hlb.
        -- apply Forall_cons. split; [exact Hl|].
           apply IH; [lia|exact Hrest|discriminate].
        -- apply IH; [lia|exact Hrest|].
           intros l [= <-]. rewrite !all_chars_snoc.
           destruct Hl as [-> ->]. unfold Usage.not_linebreak. rewrite Hc, Hlb.
           split; reflexivity.
Qed.

Lemma splitlines_chars p text :
  Usage.all_chars p text = true ->
  Forall (fun l => Usage.all_chars p l = true /\
                   Usage.all_chars Usage.not_linebreak l = true)
    (splitlines text).
Proof.
  intros Hp. apply (splitlines_from_chars p (String.length text)); [lia|exact Hp|discriminate].
Qed.

(** The parts of a line are made of characters of the line. *)
Lemma split_from_chars p sep s :
  forall cur,
    Usage.all_chars p cur = true ->
    Usage.all_chars p s = true ->
    Forall (fun part => Usage.all_chars p part = true) (split_from sep cur s).
Proof.
  induction s as [|c rest IH]; intros cur Hcur Hs; cbn [split_from].
  - apply Forall_cons. split; [exact Hcur|apply Forall_nil_2].
  - cbn [Usage.all_chars] in Hs. apply andb_true_iff in Hs. destruct Hs as [Hc Hrest].
    destruct (Ascii.eqb c sep).
    + apply Forall_cons. split; [exact Hcur|]. apply IH; [reflexivity|exact Hrest].
    + apply IH; [|exact Hrest]. rewrite all_chars_snoc, Hcur, Hc. reflexivity.
Qed.

Lemma all_chars_true s : Usage.all_chars (fun _ => true) s = true.
Proof. induction s as [|c s IH]; [reflexivity|exact IH]. Qed.

(** What the callback can be called on. *)
Lemma tokens_are_clean text :
  Forall (fun line =>
            Forall (fun token =>
                      token <> EmptyString /\ has_char " " token = false /\
                      Usage.all_chars Usage.not_linebreak token = true)
              (Described.space_tokens line))
    (splitlines text).
Proof.
  pose proof (splitlines_chars (fun _ => true) text (all_chars_true text)) as Hlines.
  eapply Forall_impl; [exact Hlines|]. intros line [_ Hline].
  unfold Described.space_tokens. apply Forall_forall. intros token Hin.
  apply list_elem_of_filter in Hin. destruct Hin as [Htruth Hin].
  split; [intros ->; discriminate Htruth|]. split.
  - pose proof (split_from_parts " " line EmptyString eq_refl) as Hparts.
    rewrite Forall_forall in Hparts. apply Hparts, Hin.
  - pose proof (split_from_chars Usage.not_linebreak " " line EmptyString eq_refl Hline)
      as Hparts.
    rewrite Forall_forall in Hparts. apply Hparts, Hin.
Qed.

Lemma map_m_ext {S A B} (f g : A -> M S B) l :
  Forall (fun x => forall s, f x s = g x s) l ->
  forall s, Described.map_m f l s = Described.map_m g l s.
Proof.
  induction l as [|x l IH]; intros Hall s; [reflexivity|].
  apply Forall_cons in Hall. destruct Hall as [Hx Hl].
  cbn [Described.map_m]. rewrite !bind_unfold, Hx.
  destruct (g x s) as [[y|e] s1]; [|reflexivity].
  rewrite !bind_unfold, (IH Hl). reflexivity.
Qed.

(** X13. [_run_lines] calls the callback with one positional argument
    and no keyword argument, and only on strings that are not empty
    and hold neither a space nor a line boundary: two callbacks that
    agree on such calls give the same outcome on every text. *)
Theorem X13_run_lines_calls_the_callback_on_clean_tokens_only :
  forall (callback1 callback2 : callable_fn),
    (forall token w,
       token <> EmptyString -> has_char " " token = false ->
       Usage.all_chars Usage.not_linebreak token = true ->
       callback1 [VStr token] [] w = callback2 [VStr token] [] w) ->
    forall self text w,
      AbstractPlugin._run_lines self text callback1 w
      = AbstractPlugin._run_lines self text callback2 w.
Proof.
  intros callback1 callback2 Hagree self text w.
  rewrite !run_lines_refines. unfold Described.run_lines_with.
  rewrite !bind_unfold.
  rewrite (map_m_ext
             (fun line =>
                results <- Described.map_m (fun token => callback1 [VStr token] [])
                             (Described.space_tokens line) ;;
                str_join " " results)
             (fun line =>
                results <- Described.map_m (fun token => callback2 [VStr token] [])
                             (Described.space_tokens line) ;;
                str_join " " results)); [reflexivity|].
  eapply Forall_impl; [apply tokens_are_clean|]. intros line Hline s.
  rewrite !bind_unfold.
  rewrite (map_m_ext (fun token => callback1 [VStr token] [])
             (fun token => callback2 [VStr token] [])); [reflexivity|].
  eapply Forall_impl; [exact Hline|]. intros token [Hne [Hsp Hlb]] s'.
  apply Hagree; assumption.
Qed.

Lemma spaces_no_tokens line :
  Usage.all_chars Usage.blank line = true ->
  Usage.all_chars Usage.not_linebreak line = true ->
  Described.space_tokens line = [].
Proof.
  unfold Described.space_tokens, split.
  induction line as [|c rest IH]; intros Hblank Hlb.
  - reflexivity.
  - cbn [Usage.all_chars] in Hblank, Hlb.
    apply andb_true_iff in Hblank, Hlb.
    destruct Hblank as [Hc Hblank]. destruct Hlb as [Hc' Hlb].
    unfold Usage.blank in Hc. unfold Usage.not_linebreak in Hc'.
    apply negb_true_iff in Hc'. rewrite Hc', orb_false_r in Hc.
    cbn [split_from]. rewrite Hc, filter_cons.
    destruct (decide (str_truth EmptyString = true)) as [Hne|_]; [discriminate Hne|].
    apply IH; assumption.
Qed.

Lemma map_m_no_tokens (callback : callable_fn) lines :
  Forall (fun line => Described.space_tokens line = []) lines ->
  forall w,
    Described.map_m
      (fun line =>
         results <- Described.map_m (fun token => callback [VStr token] [])
                      (Described.space_tokens line) ;;
         str_join " " results)
      lines w
    = (Ret (replicate (length lines) EmptyString), w).
Proof.
  induction lines as [|line lines IH]; intros Hall w; [reflexivity|].
  apply Forall_cons in Hall. destruct Hall as [Hline Hlines].
  cbn [Described.map_m length replicate]. rewrite !bind_unfold, Hline.
  cbn [Described.map_m]. rewrite ret_unfold. cbv beta iota.
  change (str_join " " [] w) with (@Ret string EmptyString, w). cbv beta iota.
  rewrite bind_unfold, (IH Hlines). reflexivity.
Qed.

(** X14. On a text made of spaces and line boundaries only, the empty
    text included, [_run_lines] never calls the callback and changes
    nothing: it returns as many empty lines as the text has, joined by
    the line separator. *)
Theorem X14_run_lines_on_blank_text :
  forall self text (callback : callable_fn) w,
    Usage.all_chars Usage.blank text = true ->
    AbstractPlugin._run_lines self text callback w
    = (Ret (join linesep (replicate (length (splitlines text)) EmptyString)), w).
Proof.
  intros self text callback w Hblank.
  rewrite run_lines_refines. unfold Described.run_lines_with.
  rewrite bind_unfold, map_m_no_tokens; [reflexivity|].
  eapply Forall_impl; [apply (splitlines_chars _ _ Hblank)|].
  intros line [Hb Hlb]. apply spaces_no_tokens; assumption.
Qed.

Lemma last_char_String c rest :
  rest <> EmptyString -> Usage.last_char (String c rest) = Usage.last_char rest.
Proof. destruct rest as [|c' rest]; [intros Hne; contradiction Hne; reflexivity|reflexivity]. Qed.

Lemma splitlines_from_lf n :
  forall s cur,
    String.length s <= n ->
    (forall c, Usage.last_char s = Some c -> is_linebreak c = false) ->
    (cur = None -> s <> EmptyString) ->
    splitlines_from cur (s ++ String "010" EmptyString) = splitlines_from cur s.
Proof.
  induction n as [|n IH]; intros s cur Hlen Hlast Hcur.
  - destruct s as [|c s]; [|cbn [String.length] in Hlen; lia].
    destruct cur as [l|]; [reflexivity|contradiction (Hcur eq_refl); reflexivity].
  - destruct s as [|c rest].
    + destruct cur as [l|]; [reflexivity|contradiction (Hcur eq_refl); reflexivity].
    + cbn [String.length] in Hlen. rewrite append_String, !splitlines_from_String.
      destruct (Ascii.eqb c "013") eqn:Hcr.
      * apply Ascii.eqb_eq in Hcr. subst c.
        destruct rest as [|c2 rest2]; [discriminate (Hlast _ eq_refl)|].
        rewrite append_String. cbn [Usage.after_cr].
        rewrite last_char_String in Hlast by discriminate.
        cbn [String.length] in Hlen.
        destruct (Ascii.eqb c2 "010") eqn:Hlf.
        -- apply Ascii.eqb_eq in Hlf. subst c2.
           destruct rest2 as [|c3 rest3]; [discriminate (Hlast _ eq_refl)|].
           rewrite last_char_String in Hlast by discriminate.
           f_equal. apply IH; [cbn [String.length] in *; lia|exact Hlast|discriminate].
        -- f_equal. rewrite <- append_String.
           apply IH; [cbn [String.length]; lia|exact Hlast|discriminate].
      * destruct (is_linebreak c) eqn:Hlb.
        -- destruct rest as [|c2 rest2]; [rewrite (Hlast _ eq_refl) in Hlb; discriminate Hlb|].
           rewrite last_char_String in Hlast by discriminate.
           f_equal. apply IH; [lia|exact Hlast|discriminate].
        -- apply IH; [lia| |discriminate].
           destruct rest as [|c2 rest2]; [discriminate|].
           rewrite last_char_String in Hlast by discriminate. exact Hlast.
Qed.

(** X15. One line feed at the end of a text is lost: unless the text
    already ends in a line boundary, [_run_lines] gives for the text
    followed by a line feed what it gives for the text. *)
Theorem X15_run_lines_drops_a_final_line_feed :
  forall self text (callback : callable_fn) w,
    (forall c, Usage.last_char text = Some c -> is_linebreak c = false) ->
    AbstractPlugin._run_lines self (text ++ String "010" EmptyString) callback w
    = AbstractPlugin._run_lines self text callback w.
Proof.
  intros self text callback w Hlast.
  destruct text as [|c rest]; [reflexivity|].
  unfold AbstractPlugin._run_lines, splitlines.
  rewrite (splitlines_from_lf (String.length (String c rest)));
    [reflexivity|lia|exact Hlast|discriminate].
Qed.

Lemma words_from_split line :
  forall cur,
    Usage.all_chars Usage.plain_whitespace line = true ->
    Usage.all_chars Usage.not_linebreak line = true ->
    Described.words_from cur line
    = filter (fun part => str_truth part = true) (split_from " " cur line).
Proof.
  induction line as [|c rest IH]; intros cur Hplain Hlb.
  - cbn [Described.words_from split_from]. rewrite filter_cons, filter_nil.
    destruct (str_truth cur); [destruct (decide (true = true)) as [_|Hne]
                              |destruct (decide (false = true)) as [Hne|_]];
      try reflexivity; [contradiction Hne; reflexivity|discriminate Hne].
  - cbn [Usage.all_chars] in Hplain, Hlb.
    apply andb_true_iff in Hplain, Hlb.
    destruct Hplain as [Hc Hplain]. destruct Hlb as [Hc' Hlb].
    assert (Hws : Described.is_whitespace c = Ascii.eqb c " ").
    { unfold Usage.plain_whitespace, Usage.blank in Hc. unfold Usage.not_linebreak in Hc'.
      apply negb_true_iff in Hc'. rewrite Hc', orb_false_r in Hc.
      destruct (Ascii.eqb c " ") eqn:Hsp.
      - apply Ascii.eqb_eq in Hsp. subst c. reflexivity.
      - rewrite orb_false_r in Hc. apply negb_true_iff in Hc. exact Hc. }
    cbn [Described.words_from split_from]. rewrite Hws.
    destruct (Ascii.eqb c " ").
    + rewrite filter_cons, (IH EmptyString Hplain Hlb).
      destruct (str_truth cur); [destruct (decide (true = true)) as [_|Hne]
                                |destruct (decide (false = true)) as [Hne|_]];
        try reflexivity; [contradiction Hne; reflexivity|discriminate Hne].
    + apply IH; assumption.
Qed.

(** X16. Where the only white space of a text is the space character
    and the line boundaries (no tab, no other separator), cutting at
    spaces is cutting at white space: [_run_lines] then does what the
    description in words of white space says. *)
Theorem X16_run_lines_cuts_at_white_space_when_it_is_plain :
  forall self text (callback : callable_fn) w,
    Usage.all_chars Usage.plain_whitespace text = true ->
    AbstractPlugin._run_lines self text callback w
    = Described.run_lines_spec text callback w.
Proof.
  intros self text callback w Hplain.
  rewrite run_lines_refines. unfold Described.run_lines_spec, Described.run_lines_with.
  rewrite !bind_unfold.
  rewrite (map_m_ext
             (fun line =>
                results <- Described.map_m (fun token => callback [VStr token] [])
                             (Described.space_tokens line) ;;
                str_join " " results)
             (fun line =>
                results <- Described.map_m (fun token => callback [VStr token] [])
                             (Described.words line) ;;
                str_join " " results)); [reflexivity|].
  eapply Forall_impl; [apply (splitlines_chars _ _ Hplain)|].
  intros line [Hp Hlb] s. unfold Described.words, Described.space_tokens, split.
  rewrite (words_from_split line EmptyString Hp Hlb). reflexivity.
Qed.

Lemma map_m_app {S A B} (f : A -> M S B) l1 :
  forall l2 s,
    Described.map_m f (l1 ++ l2) s
    = (ys1 <- Described.map_m f l1 ;;
       ys2 <- Described.map_m f l2 ;;
       ret (ys1 ++ ys2)) s.
Proof.
  induction l1 as [|x l1 IH]; intros l2 s.
  - cbn [app Described.map_m]. rewrite bind_ret, bind_unfold.
    destruct (Described.map_m f l2 s) as [[ys|e] s']; reflexivity.
  - cbn [app Described.map_m]. rewrite !bind_unfold.
    destruct (f x s) as [[y|e] s1]; [|reflexivity].
    rewrite !bind_unfold, IH, !bind_unfold.
    destruct (Described.map_m f l1 s1) as [[ys1|e] s2]; [|reflexivity].
    rewrite !bind_unfold, ret_unfold. cbv beta iota. rewrite bind_unfold.
    destruct (Described.map_m f l2 s2) as [[ys2|e] s3]; reflexivity.
Qed.

Lemma map_m_value (g : string -> value) tokens w :
  Described.map_m (fun token => Usage.value_callback g [VStr token] []) tokens w
  = (Ret (map g tokens), w).
Proof.
  induction tokens as [|token tokens IH]; [reflexivity|].
  cbn [Described.map_m map]. rewrite bind_unfold.
  change (Usage.value_callback g [VStr token] [] w) with (Ret (g token), w).
  cbv beta iota. rewrite bind_unfold, IH. reflexivity.
Qed.

Lemma all_str_map (g : string -> value) tokens :
  all_str (map g tokens)
  = if forallb (fun token => Usage.is_str (g token)) tokens
    then Some (map (fun token => Usage.str_of (g token)) tokens)
    else None.
Proof.
  induction tokens as [|token tokens IH]; [reflexivity|].
  cbn [map all_str forallb]. destruct (g token) as [|b|z|str]; try reflexivity.
  cbn [Usage.is_str Usage.str_of andb]. rewrite IH.
  destruct (forallb _ tokens); reflexivity.
Qed.

Lemma value_lines (g : string -> value) lines :
  forall w,
    (forallb (fun token => Usage.is_str (g token))
       (concat (map Described.space_tokens lines)) = true ->
     Described.map_m
       (fun line =>
          results <- Described.map_m (fun token => Usage.value_callback g [VStr token] [])
                       (Described.space_tokens line) ;;
          str_join " " results)
       lines w
     = (Ret (map (fun line =>
                    join " " (map (fun token => Usage.str_of (g token))
                                (Described.space_tokens line)))
               lines), w)) /\
    (forallb (fun token => Usage.is_str (g token))
       (concat (map Described.space_tokens lines)) = false ->
     exists msg,
       Described.map_m
         (fun line =>
            results <- Described.map_m (fun token => Usage.value_callback g [VStr token] [])
                         (Described.space_tokens line) ;;
            str_join " " results)
         lines w
       = (Raise (TypeError msg), w)).
Proof.
  induction lines as [|line lines IH]; intros w.
  - split; [reflexivity|discriminate].
  - cbn [Described.map_m map concat]. rewrite forallb_app, !bind_unfold, map_m_value.
    cbv beta iota. unfold str_join at 1 3. rewrite all_str_map.
    destruct (forallb _ (Described.space_tokens line)).
    + rewrite ret_unfold. cbv beta iota. rewrite !bind_unfold. cbn [andb].
      destruct (IH w) as [IHok IHbad]. split; intros Hall.
      * rewrite (IHok Hall). reflexivity.
      * destruct (IHbad Hall) as [msg ->]. exists msg. reflexivity.
    + split; [discriminate|]. intros _. eexists. reflexivity.
Qed.

(** X17. The callback has to return strings: with a callback that
    computes a value from the token and does nothing else,
    [_run_lines] returns the lines of joined results when the value
    is a string for every token of the text, and raises a [TypeError]
    when it is not for one of them; the state is unchanged in both
    cases. *)
Theorem X17_run_lines_needs_a_callback_that_returns_strings :
  forall self text (g : string -> value) w,
    (forallb (fun token => Usage.is_str (g token)) (Usage.tokens_of text) = true ->
     AbstractPlugin._run_lines self text (Usage.value_callback g) w
     = (Ret (join linesep
               (map (fun line =>
                       join " " (map (fun token => Usage.str_of (g token))
                                   (Described.space_tokens line)))
                  (splitlines text))), w)) /\
    (forallb (fun token => Usage.is_str (g token)) (Usage.tokens_of text) = false ->
     exists msg,
       AbstractPlugin._run_lines self text (Usage.value_callback g) w
       = (Raise (TypeError msg), w)).
Proof.
  intros self text g w. rewrite run_lines_refines.
  unfold Described.run_lines_with, Usage.tokens_of.
  rewrite bind_unfold.
  destruct (value_lines g (splitlines text) w) as [Hok Hbad]. split; intros Hall.
  - rewrite (Hok Hall). reflexivity.
  - destruct (Hbad Hall) as [msg ->]. exists msg. reflexivity.
Qed.

Lemma map_m_all_str {S} (f : string -> M S value) tokens :
  (forall token s v s', f token s = (Ret v, s') -> Usage.is_str v = true) ->
  forall s vs s',
    Described.map_m f tokens s = (Ret vs, s') ->
    exists strs, all_str vs = Some strs.
Proof.
  intros Hstr. induction tokens as [|token tokens IH]; intros s vs s'.
  - intros [= <- _]. exists []. reflexivity.
  - cbn [Described.map_m]. rewrite bind_unfold.
    destruct (f token s) as [[v|e] s1] eqn:Hf; [|discriminate].
    rewrite bind_unfold.
    destruct (Described.map_m f tokens s1) as [[vs'|e] s2] eqn:Hrest; [|discriminate].
    intros [= <- _]. destruct (IH _ _ _ Hrest) as [strs Hstrs].
    pose proof (Hstr _ _ _ _ Hf) as Hv. destruct v as [|b|z|str]; try discriminate Hv.
    exists (str :: strs). cbn [all_str]. rewrite Hstrs. reflexivity.
Qed.

Lemma lines_in_reading_order (callback : callable_fn) lines :
  (forall a k w v w', callback a k w = (Ret v, w') -> Usage.is_str v = true) ->
  forall w,
    match Described.map_m (fun token => callback [VStr token] [])
            (concat (map Described.space_tokens lines)) w with
    | (Ret _, w') =>
        exists ls,
          Described.map_m
            (fun line =>
               results <- Described.map_m (fun token => callback [VStr token] [])
                            (Described.space_tokens line) ;;
               str_join " " results)
            lines w = (Ret ls, w')
    | (Raise e, w') =>
        Described.map_m
          (fun line =>
             results <- Described.map_m (fun token => callback [VStr token] [])
                          (Described.space_tokens line) ;;
             str_join " " results)
          lines w = (Raise e, w')
    end.
Proof.
  intros Hstr. induction lines as [|line lines IH]; intros w.
  - cbn [map concat Described.map_m]. rewrite ret_unfold. exists []. reflexivity.
  - cbn [map concat Described.map_m]. rewrite map_m_app, !bind_unfold.
    destruct (Described.map_m _ (Described.space_tokens line) w) as [[vs|e] w1] eqn:Hline;
      [|reflexivity].
    destruct (map_m_all_str (fun token => callback [VStr token] []) _
                (fun token s v s' => Hstr _ _ _ _ _) _ _ _ Hline) as [strs Hstrs].
    unfold str_join at 1 3. rewrite Hstrs, ret_unfold, !bind_unfold.
    specialize (IH w1).
    destruct (Described.map_m _ (concat _) w1) as [[vs'|e] w2].
    + destruct IH as [ls ->]. rewrite !ret_unfold. eexists. reflexivity.
    + rewrite IH. reflexivity.
Qed.

(** X18. With a callback that returns strings when it returns,
    [_run_lines] calls it once on each token of the text, in reading
    order: the world it leaves is the one these calls leave, and it
    raises exactly when one of these calls raises, with the same
    exception, the tokens after that one not being processed. *)
Theorem X18_run_lines_calls_the_callback_in_reading_order :
  forall self text (callback : callable_fn) w,
    (forall a k w v w', callback a k w = (Ret v, w') -> Usage.is_str v = true) ->
    match Described.map_m (fun token => callback [VStr token] [])
            (Usage.tokens_of text) w with
    | (Ret _, w') =>
        exists out, AbstractPlugin._run_lines self text callback w = (Ret out, w')
    | (Raise e, w') =>
        AbstractPlugin._run_lines self text callback w = (Raise e, w')
    end.
Proof.
  intros self text callback w Hstr.
  pose proof (lines_in_reading_order callback (splitlines text) Hstr w) as Hlines.
  unfold Usage.tokens_of. rewrite run_lines_refines. unfold Described.run_lines_with.
  rewrite bind_unfold.
  destruct (Described.map_m _ (concat _) w) as [[vs|e] w1].
  - destruct Hlines as [ls ->]. eexists. reflexivity.
  - rewrite Hlines. reflexivity.
Qed.

End Properties.

(** * The properties at concrete inputs *)

#[local] Existing Instance Posix.runtime.

(** C1 at two commands that share name and type and differ in author
    and run hook. *)
Lemma C1_witness :
  Command.eq (Examples.base64_command None Examples.echo)
    (Examples.base64_command (Some "Thomas") Examples.count_keywords) = true /\
  Command.hash_ (Examples.base64_command None Examples.echo)
  = Command.hash_ (Examples.base64_command (Some "Thomas") Examples.count_keywords).
Proof.
  apply (proj1 C1_identity_is_name_and_type). split; reflexivity.
Defined.

(** C2 at a command built from the name [Base64], the type [Decoder]
    and a run hook, the author left unset. *)
Lemma C2_witness :
  exists c s',
    Described.built_without_author "Base64" "Decoder" Examples.echo
      (Command.Builder.State ∅ []) = (Ret c, s') /\
    Command.name c = Some "Base64" /\ Command.type c = Some "Decoder" /\
    Command.author c = None /\ opt_str_truth (Command.author c) = false.
Proof.
  apply (proj2 (proj2 C2_build_returns_the_settings)). discriminate.
Defined.

(** C3 at a builder without a name. *)
Lemma C3_witness :
  exists msg,
    Command.Builder.build 1 (Examples.with_builder Examples.unnamed_builder)
    = (Raise (AssertionError msg), Examples.with_builder Examples.unnamed_builder).
Proof.
  apply (proj1 C3_construction_fails_on_violated_preconditions _ _ Examples.unnamed_builder).
  - reflexivity.
  - left. reflexivity.
Defined.



(** C5 at two lines, the first with two spaces between its tokens. *)
Lemma C5_witness :
  AbstractPlugin._run_lines (Examples.plugin AbstractPlugin.plain None)
    ("ab  cd" ++ Examples.newline ++ "ef") (Described.pure_callback Examples.bracket) []
  = (Ret ("[ab] [cd]" ++ Examples.newline ++ "[ef]")%string, []).
Proof.
  rewrite (proj1 C5_run_lines_cuts_at_spaces). reflexivity.
Defined.

(** C5, the claim as it stands fails: a tab is white space but does
    not separate, so the callback sees one token where the
    specification has two. *)
Lemma C5_counterexample :
  AbstractPlugin._run_lines (Examples.plugin AbstractPlugin.plain None)
    ("A" ++ Examples.tab ++ "B") (Described.pure_callback Examples.bracket) []
  = (Ret ("[A" ++ Examples.tab ++ "B]")%string, []) /\
  Described.run_lines_spec
    ("A" ++ Examples.tab ++ "B") (Described.pure_callback Examples.bracket) []
  = (Ret "[A] [B]", []) /\
  AbstractPlugin._run_lines (Examples.plugin AbstractPlugin.plain None)
    ("A" ++ Examples.tab ++ "B") (Described.pure_callback Examples.bracket) []
  <> Described.run_lines_spec
       ("A" ++ Examples.tab ++ "B") (Described.pure_callback Examples.bracket) [].
Proof. repeat split. discriminate. Qed.

(** C6 at the name [Base64] and the type [Decoder]: in the state
    [build] leaves the default title is [Base64 Decoder], and the
    default select runs the hook and returns [None]. *)
Lemma C6_witness :
  exists c s',
    Command.Builder.build 1 (Examples.with_builder Examples.base64_builder) = (Ret c, s') /\
    Command.title c s' = (Ret (VStr "Base64 Decoder"), s') /\
    Command.select c [VStr "QQ=="] [] s'
    = (Ret VNone,
       Command.Builder.State (Command.Builder.builders s') ["echo"]).
Proof.
  destruct (proj1 C6_default_hooks_read_the_builder
              (Examples.with_builder Examples.base64_builder) 1%positive
              Examples.base64_builder "Base64" "Decoder" Examples.echo
              eq_refl eq_refl ltac:(discriminate) eq_refl eq_refl)
    as [c [s' [Hbuild [_ [_ [_ [_ [_ [Hselect Htitle]]]]]]]]].
  exists c, s'. split; [exact Hbuild|]. split; [exact (Htitle eq_refl)|].
  rewrite (Hselect eq_refl).
  pose proof (build_returns (Examples.with_builder Examples.base64_builder) 1%positive
                Examples.base64_builder "Base64" "Decoder" Examples.echo
                eq_refl eq_refl ltac:(discriminate) eq_refl eq_refl) as Hret.
  cbv zeta in Hret. rewrite Hret in Hbuild. injection Hbuild as _ <-. reflexivity.
Defined.

(** C6, the claim as it stands fails: the command built with the name
    [Base64] keeps this name, and its default title is [Base32 Decoder]
    once the builder has been given the name [Base32]. *)
Lemma C6_counterexample :
  Command.Builder.build 1 (Examples.with_builder Examples.base64_builder)
  = (Ret (Examples.base64_command None Examples.echo), Examples.built_state) /\
  Command.Builder.name 1 (Some "Base32") Examples.built_state
  = (Ret 1%positive, Examples.renamed_state) /\
  Command.name (Examples.base64_command None Examples.echo) = Some "Base64" /\
  Command.type (Examples.base64_command None Examples.echo) = Some "Decoder" /\
  Command.title (Examples.base64_command None Examples.echo) Examples.renamed_state
  = (Ret (VStr "Base32 Decoder"), Examples.renamed_state).
Proof. repeat split. Qed.

(** C7 at a plugin that defines [run] and inherits [select]. *)
Lemma C7_witness :
  AbstractPlugin.send_select (Examples.plugin Examples.keyword_counter None) [VStr "QQ=="] [] []
  = AbstractPlugin.send_run (Examples.plugin Examples.keyword_counter None) [VStr "QQ=="] [] [].
Proof.
  apply (proj2 (proj2 (proj2 C7_run_unimplemented_select_forwards_positional))).
  reflexivity.
Defined.

(** C7, the claim as it stands fails: the inherited [select] does not
    hand its keyword arguments to [run]. *)
Lemma C7_counterexample :
  AbstractPlugin.send_select (Examples.plugin Examples.keyword_counter None)
    [VStr "QQ=="] [("strict", VBool true)] []
  = (Ret (VInt 0), []) /\
  AbstractPlugin.send_run (Examples.plugin Examples.keyword_counter None)
    [VStr "QQ=="] [("strict", VBool true)] []
  = (Ret (VInt 1), []).
Proof. split; reflexivity. Qed.

(** C8 at a decoder plugin with name and author. *)
Lemma C8_witness :
  AbstractPlugin.type (Examples.plugin AbstractPlugin.plain None) = Some "Decoder".
Proof.
  apply (proj1 C8_decoder_plugin unit AbstractPlugin.plain
           (Some "Base64") (Some "Thomas") None tt tt).
  reflexivity.
Defined.

(** C10 at a run hook that counts its keyword arguments: it sees none
    of the one that [run] was given. *)
Lemma C10_witness :
  Command.run (Examples.base64_command None Examples.count_keywords)
    [VStr "QQ=="] [("strict", VBool true)] (Command.Builder.State ∅ [])
  = (Ret (VInt 0), Command.Builder.State ∅ []).
Proof.
  rewrite (proj1 (proj1 (proj2 (proj2 C10_keyword_arguments_are_dropped))
                    (Examples.base64_command None Examples.count_keywords)
                    Examples.count_keywords _ _ _) eq_refl).
  reflexivity.
Defined.

(** * The further properties at concrete inputs *)

(** X1 at a name and a type set in either order. *)
Lemma X1_witness :
  Usage.chain 1 [Usage.SetName (Some "Base64"); Usage.SetType (Some "Decoder")]
    (Examples.with_builder Examples.unnamed_builder)
  = Usage.chain 1 [Usage.SetType (Some "Decoder"); Usage.SetName (Some "Base64")]
      (Examples.with_builder Examples.unnamed_builder).
Proof.
  apply (proj1 (proj2 X1_setter_calls_compose)). discriminate.
Defined.

(** X3 at the builder of the [Base64] decoder. *)
Lemma X3_witness :
  Command.Builder.build 1 Examples.built_state
  = (Ret (Examples.base64_command None Examples.echo), Examples.built_state).
Proof.
  apply (proj1 (X3_build_again_returns_the_same_command
                  (Examples.with_builder Examples.base64_builder) 1%positive _ _ eq_refl)).
Defined.

(** X4 at the same builder. *)
Lemma X4_witness :
  exists n t r sel ti,
    n <> EmptyString /\
    Examples.base64_command None Examples.echo
    = Command.init (Some n) (Some t) None
        (Some ti) (Some (Command.Fn r)) (Some sel) Command.Command_ /\
    Command.Builder.builders Examples.built_state !! 1%positive
    = Some (Command.Builder.init (Some n) (Some t) None (Some r) (Some sel) (Some ti)) /\
    Command.eq (Examples.base64_command None Examples.echo) NullCommand.new = false.
Proof.
  apply (X4_built_commands_are_complete
           (Examples.with_builder Examples.base64_builder) 1%positive
           (Examples.base64_command None Examples.echo) Examples.built_state eq_refl).
Defined.

(** X5 at the same builder: [run] returns the argument, as the run
    hook does. *)
Lemma X5_witness :
  Command.run (Examples.base64_command None Examples.echo) [VStr "QQ=="] []
    Examples.built_state
  = (Ret (VStr "QQ=="),
     Command.Builder.State (Command.Builder.builders Examples.built_state) ["echo"]).
Proof.
  rewrite (proj1 (X5_given_hooks_are_called
                    (Examples.with_builder Examples.base64_builder) 1%positive
                    Examples.base64_builder (Examples.base64_command None Examples.echo)
                    Examples.built_state eq_refl eq_refl)
             Examples.echo [VStr "QQ=="] [] eq_refl).
  reflexivity.
Defined.

(** X6 at the same builder: [select] leaves the mark of the run hook
    and returns [None]. *)
Lemma X6_witness :
  snd (Command.select (Examples.base64_command None Examples.echo) [VStr "QQ=="] []
         Examples.built_state)
  = snd (Command.run (Examples.base64_command None Examples.echo) [VStr "QQ=="] []
           Examples.built_state) /\
  fst (Command.select (Examples.base64_command None Examples.echo) [VStr "QQ=="] []
         Examples.built_state)
  = Ret VNone.
Proof.
  apply (proj2 (X6_default_select_acts_as_run
                  (Examples.with_builder Examples.base64_builder) 1%positive
                  Examples.base64_builder (Examples.base64_command None Examples.echo)
                  Examples.built_state eq_refl eq_refl eq_refl)
           Examples.built_state Examples.built_builder [VStr "QQ=="] [] eq_refl eq_refl).
Defined.

(** X7 at the same builder, given a run hook that counts keywords
    after the command was built. *)
Lemma X7_witness :
  exists c s1 s2 s3,
    Command.Builder.build 1 (Examples.with_builder Examples.base64_builder) = (Ret c, s1) /\
    Command.Builder.run 1 (Some Examples.count_keywords) s1 = (Ret 1%positive, s2) /\
    Command.Builder.run 1 None s1 = (Ret 1%positive, s3) /\
    forall a k,
      Command.run c a k s2 = Command.Builder.lift (Examples.echo a []) s2 /\
      Command.select c a k s2
      = (Command.Builder.lift (Examples.count_keywords a []) ;;; ret VNone) s2 /\
      Command.select c a k s3
      = (Raise (TypeError "'NoneType' object is not callable"), s3).
Proof.
  apply (X7_default_select_follows_the_builder
           (Examples.with_builder Examples.base64_builder) 1%positive
           Examples.base64_builder "Base64" "Decoder" Examples.echo Examples.count_keywords
           eq_refl eq_refl ltac:(discriminate) eq_refl eq_refl eq_refl).
Defined.

(** X9 at a decoder with name and author. *)
Lemma X9_witness :
  AbstractPlugin.init AbstractPlugin.plain (Some "Base64") (Some "Decoder")
    (Some "Thomas") None tt
  = (Ret (Examples.plugin AbstractPlugin.plain None), tt).
Proof.
  apply (proj2 (X9_plugin_constructor_returns_exactly_on_valid_arguments
                  unit AbstractPlugin.plain (Some "Base64") (Some "Decoder")
                  (Some "Thomas") None tt tt (Examples.plugin AbstractPlugin.plain None))).
  split; [exists "Base64"; split; [reflexivity|discriminate]|].
  split; [exists "Thomas"; split; [reflexivity|discriminate]|].
  split; [exists "Decoder"; split; [reflexivity|apply list_elem_of_here]|].
  split; reflexivity.
Defined.

(** X10 at an encoder with name and author. *)
Lemma X10_witness :
  Usage.construct Usage.Encoder AbstractPlugin.plain (Some "Base64") (Some "Thomas") None tt
  = (Ret (AbstractPlugin.Object (Some "Base64") (Some "Encoder") (Some "Thomas") None
            AbstractPlugin.plain), tt).
Proof.
  apply (proj1 (proj2 X10_typed_constructors_fix_the_type)); discriminate.
Defined.

(** X11 at dependencies of which the second ends the interpreter: the
    third is not imported. *)
Lemma X11_witness :
  AbstractPlugin.check_dependencies
    (Examples.plugin AbstractPlugin.plain
       (Some ["base64"; "exits_on_import"; "nonexistent_xyz"])) []
  = (Raise (BaseOnly "SystemExit"), ["exits_on_import"; "base64"]).
Proof.
  apply (X11_check_dependencies_stops_at_the_first_escaping_import
           (Examples.plugin AbstractPlugin.plain
              (Some ["base64"; "exits_on_import"; "nonexistent_xyz"]))
           [] ["exits_on_import"; "base64"] ["base64"] "exits_on_import"
           ["nonexistent_xyz"] (BaseOnly "SystemExit")).
  - reflexivity.
  - repeat constructor.
  - reflexivity.
  - reflexivity.
Defined.

(** X12 at dependencies whose imports return or raise an [Exception]. *)
Lemma X12_witness :
  exists l w',
    AbstractPlugin.check_dependencies
      (Examples.plugin AbstractPlugin.plain (Some ["nonexistent_xyz"; "hashlib"])) []
    = (Ret l, w').
Proof.
  apply (proj2 (proj1 (X12_check_dependencies_returns_unless_an_import_escapes
                         (Examples.plugin AbstractPlugin.plain
                            (Some ["nonexistent_xyz"; "hashlib"])) []))).
  repeat constructor.
Defined.

(** X13 at a callback that refuses what is not a token and one that
    does not. *)
Lemma X13_witness :
  AbstractPlugin._run_lines (Examples.plugin AbstractPlugin.plain None)
    (" ab  cd" ++ Examples.newline ++ "ef ") (Described.pure_callback Examples.bracket) []
  = AbstractPlugin._run_lines (Examples.plugin AbstractPlugin.plain None)
      (" ab  cd" ++ Examples.newline ++ "ef ") Examples.picky_bracket [].
Proof.
  apply (X13_run_lines_calls_the_callback_on_clean_tokens_only
           (Described.pure_callback Examples.bracket) Examples.picky_bracket).
  intros token w Hne Hspace _. unfold Described.pure_callback, Examples.picky_bracket.
  rewrite Hspace. destruct token; [contradiction Hne|]; reflexivity.
Defined.

(** X14 at two lines of spaces. *)
Lemma X14_witness :
  AbstractPlugin._run_lines (Examples.plugin AbstractPlugin.plain None)
    ("  " ++ Examples.newline ++ " ") Examples.echo []
  = (Ret Examples.newline, []).
Proof.
  apply (X14_run_lines_on_blank_text (Examples.plugin AbstractPlugin.plain None)
           ("  " ++ Examples.newline ++ " ") Examples.echo [] eq_refl).
Defined.

(** X15 at one line. *)
Lemma X15_witness :
  AbstractPlugin._run_lines (Examples.plugin AbstractPlugin.plain None)
    ("ab cd" ++ Examples.newline) (Described.pure_callback Examples.bracket) []
  = AbstractPlugin._run_lines (Examples.plugin AbstractPlugin.plain None)
      "ab cd" (Described.pure_callback Examples.bracket) [].
Proof.
  apply (X15_run_lines_drops_a_final_line_feed
           (Examples.plugin AbstractPlugin.plain None) "ab cd").
  intros c [= <-]. reflexivity.
Defined.

(** X16 at a text without tabs. *)
Lemma X16_witness :
  AbstractPlugin._run_lines (Examples.plugin AbstractPlugin.plain None)
    ("ab  cd" ++ Examples.newline ++ "ef") (Described.pure_callback Examples.bracket) []
  = Described.run_lines_spec
      ("ab  cd" ++ Examples.newline ++ "ef") (Described.pure_callback Examples.bracket) [].
Proof.
  apply (X16_run_lines_cuts_at_white_space_when_it_is_plain
           (Examples.plugin AbstractPlugin.plain None)
           ("ab  cd" ++ Examples.newline ++ "ef")
           (Described.pure_callback Examples.bracket) [] eq_refl).
Defined.

(** X17 at a callback that answers [None] on the second token. *)
Lemma X17_witness :
  exists msg,
    AbstractPlugin._run_lines (Examples.plugin AbstractPlugin.plain None)
      "ab cd" (Usage.value_callback Examples.none_for_cd) []
    = (Raise (TypeError msg), []).
Proof.
  apply (proj2 (X17_run_lines_needs_a_callback_that_returns_strings
                  (Examples.plugin AbstractPlugin.plain None) "ab cd"
                  Examples.none_for_cd [])).
  reflexivity.
Defined.

(** X18 at a callback that writes each token it is given into the
    world. *)
Lemma X18_witness :
  exists out,
    AbstractPlugin._run_lines (Examples.plugin AbstractPlugin.plain None)
      ("ab cd" ++ Examples.newline ++ "ef") Examples.logging_bracket []
    = (Ret out, ["ef"; "cd"; "ab"]).
Proof.
  apply (X18_run_lines_calls_the_callback_in_reading_order
           (Examples.plugin AbstractPlugin.plain None)
           ("ab cd" ++ Examples.newline ++ "ef") Examples.logging_bracket []).
  intros a k w v w'. unfold Examples.logging_bracket.
  destruct a as [|[| | |str] [|]]; try discriminate.
  intros [= <- _]. reflexivity.
Defined.

(** X19 at the builder of the [Base64] decoder, renamed after the
    command was built. *)
Lemma X19_witness :
  exists c s1 s2,
    Command.Builder.build 1 (Examples.with_builder Examples.base64_builder) = (Ret c, s1) /\
    Command.Builder.name 1 (Some "Base32") s1 = (Ret 1%positive, s2) /\
    Command.name c = Some "Base64" /\
    Command.title c s2 = (Ret (VStr "Base32 Decoder"), s2).
Proof.
  apply (default_title_follows_the_builder
           (Examples.with_builder Examples.base64_builder) 1%positive
           Examples.base64_builder "Base64" "Decoder" Examples.echo "Base32"
           eq_refl eq_refl ltac:(discriminate) eq_refl eq_refl eq_refl).
Defined.
